(** * WS2812B single-wire LED driver over SPI

    A shallow embedding of
    [target/linux/mediatek/files-5.15/drivers/leds/leds-spi-single-wire.c]:
    the three oversampling tables, the pixel composer, the blocking
    brightness setter with its shared chip command buffer, the probe
    routine and an interleaving semantics of concurrent brightness
    updates.

    Conventions.  C integers are [Z]; a conversion to [u8] is written
    [to_u8].  A pointer into the group command buffer is the byte offset
    from the start of that allocation.  An access outside an array or an
    allocation has no defined result in C: it is [None] here. *)

From Stdlib Require Import ZArith List Bool Lia.
From Stdlib Require String.
Import ListNotations String.StringSyntax.
Delimit Scope string_scope with string.
Local Open Scope Z_scope.

(** ** Machine integers and arrays *)

Definition to_u8 (x : Z) : Z := x mod 256.

Definition is_u8 (x : Z) : bool := (0 <=? x) && (x <? 256).

(** [a[i]] on an array of known extent. *)
Definition index (a : list Z) (i : Z) : option Z :=
  if 0 <=? i then nth_error a (Z.to_nat i) else None.

Definition bind {A B : Type} (x : option A) (f : A -> option B) : option B :=
  match x with
  | Some a => f a
  | None => None
  end.

Notation "x <- e ;; k" := (bind e (fun x => k))
  (at level 61, e at next level, right associativity).

(** Every 8-bit value, in increasing order. *)
Definition all_u8 : list Z := map Z.of_nat (seq 0 256).

(** ** Bit encoder *)

Module Encoder.

(** The tables are [const char]; whatever the signedness of [char], the
    assignment to a [u8] field yields the values below. *)
Definition byte2encoding_h : list Z :=
  [0x92; 0x93; 0x9a; 0x9b; 0xd2; 0xd3; 0xda; 0xdb].

Definition byte2encoding_m : list Z :=
  [0x49; 0x4d; 0x69; 0x6d].

Definition byte2encoding_l : list Z :=
  [0x24; 0x26; 0x34; 0x36; 0xa4; 0xa6; 0xb4; 0xb6].

Record ws2812b_encoding : Type := mk_encoding { h : Z; m : Z; l : Z }.

(** The three table subscripts of [ws2812b_set_encoded_pixel]. *)
Definition index_h (val : Z) : Z := Z.land (Z.shiftr val 5) 0x07.
Definition index_m (val : Z) : Z := Z.land (Z.shiftr val 3) 0x03.
Definition index_l (val : Z) : Z := Z.land (Z.shiftr val 0) 0x07.

Definition ws2812b_set_encoded_pixel (val : Z) : option ws2812b_encoding :=
  eh <- index byte2encoding_h (index_h val) ;;
  em <- index byte2encoding_m (index_m val) ;;
  el <- index byte2encoding_l (index_l val) ;;
  Some {| h := to_u8 eh; m := to_u8 em; l := to_u8 el |}.

(** Bytes of a [struct ws2812b_encoding] in memory order. *)
Definition encoding_bytes (e : ws2812b_encoding) : list Z := [h e; m e; l e].

(** The 24 oversampled bits of a triplet as sent: [h] first, most
    significant bit first. *)
Definition stream (e : ws2812b_encoding) : Z :=
  Z.lor (Z.shiftl (h e) 16) (Z.lor (Z.shiftl (m e) 8) (l e)).

(** The aligned 3-bit group that carries logical bit [k] (bit 0 is the
    least significant, sent last). *)
Definition symbol (s : Z) (k : Z) : Z := Z.land (Z.shiftr s (3 * k)) 7.

Definition pattern_zero : Z := 4.  (* 0b100 *)
Definition pattern_one : Z := 6.   (* 0b110 *)

Definition pattern_of (b : bool) : Z := if b then pattern_one else pattern_zero.

(** Decoder of the round-trip property: it reads the eight aligned
    3-bit groups of the oversampled stream and rebuilds the logical
    byte, failing on a group that is neither pattern.  This one follows
    the wording of the specification; the driver has no decoder. *)
Definition decode_symbol (x : Z) : option Z :=
  if x =? pattern_one then Some 1
  else if x =? pattern_zero then Some 0
  else None.

Fixpoint decode_bits (s : Z) (n : nat) : option Z :=
  match n with
  | O => Some 0
  | S n' =>
      b <- decode_symbol (symbol s (Z.of_nat n')) ;;
      rest <- decode_bits s n' ;;
      Some (Z.lor (Z.shiftl b (Z.of_nat n')) rest)
  end.

(** The three bytes on the wire for one channel value. *)
Definition encode (val : Z) : option (list Z) :=
  e <- ws2812b_set_encoded_pixel val ;; Some (encoding_bytes e).

Definition decode (e : ws2812b_encoding) : option Z := decode_bits (stream e) 8.

(** Executable forms of the encoder properties, for one input. *)
Definition round_trip_check (v : Z) : bool :=
  match ws2812b_set_encoded_pixel v with
  | Some e =>
      match decode e with
      | Some w => w =? v
      | None => false
      end
  | None => false
  end.

Definition entry_is (tbl : list Z) (i : Z) (x : Z) : bool :=
  match index tbl i with
  | Some y => y =? x
  | None => false
  end.

Definition logical_bits : list Z := [0; 1; 2; 3; 4; 5; 6; 7].

Definition waveform_check (v : Z) : bool :=
  match ws2812b_set_encoded_pixel v with
  | Some e =>
      forallb is_u8 (encoding_bytes e)
      && entry_is byte2encoding_h ((v / 32) mod 8) (h e)
      && entry_is byte2encoding_m ((v / 8) mod 4) (m e)
      && entry_is byte2encoding_l (v mod 8) (l e)
      && forallb (fun k => symbol (stream e) k =? pattern_of (Z.testbit v k))
                 logical_bits
  | None => false
  end.

End Encoder.

(** ** Pixel composer *)

Module Pixel.
Import Encoder.

(** [struct ws2812b_pixel { struct ws2812b_encoding r, g, b; }] *)
Record ws2812b_pixel : Type := mk_pixel {
  r : ws2812b_encoding;
  g : ws2812b_encoding;
  b : ws2812b_encoding
}.

Definition set_r (spix : ws2812b_pixel) (e : ws2812b_encoding) : ws2812b_pixel :=
  {| r := e; g := g spix; b := b spix |}.
Definition set_g (spix : ws2812b_pixel) (e : ws2812b_encoding) : ws2812b_pixel :=
  {| r := r spix; g := e; b := b spix |}.
Definition set_b (spix : ws2812b_pixel) (e : ws2812b_encoding) : ws2812b_pixel :=
  {| r := r spix; g := g spix; b := e |}.

(** The statements run in the order of the source: [g], [r], [b]. *)
Definition ws2812b_set_pixel_value (spix : ws2812b_pixel) (rv gv bv : Z)
  : option ws2812b_pixel :=
  eg <- ws2812b_set_encoded_pixel gv ;;
  let spix := set_g spix eg in
  er <- ws2812b_set_encoded_pixel rv ;;
  let spix := set_r spix er in
  eb <- ws2812b_set_encoded_pixel bv ;;
  let spix := set_b spix eb in
  Some spix.

(** What [memcpy(dst, &spix, sizeof(spix))] reads: the members in
    declaration order, nine bytes of alignment one, no padding. *)
Definition pixel_bytes (spix : ws2812b_pixel) : list Z :=
  encoding_bytes (r spix) ++ encoding_bytes (g spix) ++ encoding_bytes (b spix).

Definition sizeof_spix : Z := 9.

(** A local [struct ws2812b_pixel] before its first assignment. *)
Definition spix_on_entry : ws2812b_pixel :=
  let z := {| h := 0; m := 0; l := 0 |} in {| r := z; g := z; b := z |}.

End Pixel.

(** ** Memory blocks *)

Definition mem_read (mem : list Z) (off len : Z) : option (list Z) :=
  if (0 <=? off) && (0 <=? len) && (off + len <=? Z.of_nat (length mem))
  then Some (firstn (Z.to_nat len) (skipn (Z.to_nat off) mem))
  else None.

Definition mem_write (mem : list Z) (off : Z) (src : list Z) : option (list Z) :=
  if (0 <=? off) && (off + Z.of_nat (length src) <=? Z.of_nat (length mem))
  then Some (firstn (Z.to_nat off) mem ++ src
             ++ skipn (Z.to_nat off + length src) mem)
  else None.

Fixpoint list_set {A : Type} (xs : list A) (n : nat) (x : A) : option (list A) :=
  match xs, n with
  | [], _ => None
  | _ :: tl, O => Some (x :: tl)
  | y :: tl, S n' => tl' <- list_set tl n' x ;; Some (y :: tl')
  end.

(** ** Driver state *)

Module Driver.
Import Encoder Pixel.

Definition ENOMEM : Z := 12.
Definition ENODEV : Z := 19.
Definition LED_OFF : Z := 0.
Definition LED_FULL : Z := 255.

Inductive led_color_id : Type :=
| LED_COLOR_ID_WHITE
| LED_COLOR_ID_RED
| LED_COLOR_ID_GREEN
| LED_COLOR_ID_BLUE.

Record spi_ws2812b_chipdef : Type := mk_chipdef {
  chip_num : Z;
  led_ctrl_cmd_len : Z;
  led_num_channels : Z
}.

Definition miwifi_ws2812b_spi_led : spi_ws2812b_chipdef :=
  {| chip_num := 2; led_num_channels := 3; led_ctrl_cmd_len := 9 |}.

Record mc_subled : Type := mk_subled {
  color_index : led_color_id;
  brightness : Z;
  intensity : Z;
  channel : Z
}.

Record led_classdev : Type := mk_cdev {
  cdev_brightness : Z;
  max_brightness : Z
}.

Record led_classdev_mc : Type := mk_mc {
  led_cdev : led_classdev;
  num_colors : Z;
  subled_info : list mc_subled
}.

(** [mutex] is the [struct mutex] embedded in the LED object: [true]
    while held.  [led_ctrl_cmd] is an offset into the group buffer. *)
Record spi_ws2812b_led : Type := mk_led {
  mc_ldev : led_classdev_mc;
  mutex : bool;
  cdef : spi_ws2812b_chipdef;
  led_ctrl_cmd : Z;
  chip_id : Z
}.

(** What the driver hands to the bus, in program order. *)
Inductive bus_event : Type :=
| WriteCall (led : nat) (frame : list Z)
| WriteReturn (led : nat) (ret : Z).

(** One SPI device: the group buffer (absent until allocated), the LED
    objects in creation order, the driver data pointer, the LEDs
    registered with the multicolor class and the bus log. *)
Record device : Type := mk_device {
  chip_cmd_buffer : option (list Z);
  leds : list spi_ws2812b_led;
  drvdata : option nat;
  registered : list nat;
  bus : list bus_event
}.

Definition unbound_device : device :=
  {| chip_cmd_buffer := None; leds := []; drvdata := None;
     registered := []; bus := [] |}.

Definition with_leds (d : device) (ls : list spi_ws2812b_led) : device :=
  {| chip_cmd_buffer := chip_cmd_buffer d; leds := ls; drvdata := drvdata d;
     registered := registered d; bus := bus d |}.

Definition with_buffer (d : device) (buf : list Z) : device :=
  {| chip_cmd_buffer := Some buf; leds := leds d; drvdata := drvdata d;
     registered := registered d; bus := bus d |}.

Definition with_bus (d : device) (evs : list bus_event) : device :=
  {| chip_cmd_buffer := chip_cmd_buffer d; leds := leds d; drvdata := drvdata d;
     registered := registered d; bus := evs |}.

Definition with_drvdata (d : device) (k : nat) : device :=
  {| chip_cmd_buffer := chip_cmd_buffer d; leds := leds d; drvdata := Some k;
     registered := registered d; bus := bus d |}.

Definition with_registered (d : device) (ks : list nat) : device :=
  {| chip_cmd_buffer := chip_cmd_buffer d; leds := leds d; drvdata := drvdata d;
     registered := ks; bus := bus d |}.

Definition with_mutex (led : spi_ws2812b_led) (held : bool) : spi_ws2812b_led :=
  {| mc_ldev := mc_ldev led; mutex := held; cdef := cdef led;
     led_ctrl_cmd := led_ctrl_cmd led; chip_id := chip_id led |}.

Definition with_mc_ldev (led : spi_ws2812b_led) (mc : led_classdev_mc)
  : spi_ws2812b_led :=
  {| mc_ldev := mc; mutex := mutex led; cdef := cdef led;
     led_ctrl_cmd := led_ctrl_cmd led; chip_id := chip_id led |}.

Definition store_led (d : device) (k : nat) (led : spi_ws2812b_led)
  : option device :=
  ls <- list_set (leds d) k led ;; Some (with_leds d ls).

(** The match table of the driver, and what the kernel hands the probe
    for a device node: the data of the entry whose [compatible] string
    the node carries, or none. *)
Definition spi_ws2812b_dt_ids : list (String.string * spi_ws2812b_chipdef) :=
  [ ("xiaomi,ws2812b-spi"%string, miwifi_ws2812b_spi_led) ].

Definition device_get_match_data (compatible : String.string)
  : option spi_ws2812b_chipdef :=
  option_map snd
    (find (fun entry => String.eqb (fst entry) compatible) spi_ws2812b_dt_ids).

(** Where an LED sits in its group: chip definition, chip number and
    slot pointer.  [probed_layout cd n] is the layout of [n] LEDs
    created one after the other by the probe loop. *)
Definition led_layout (led : spi_ws2812b_led)
  : spi_ws2812b_chipdef * Z * Z :=
  (cdef led, chip_id led, led_ctrl_cmd led).

Definition probed_layout (cd : spi_ws2812b_chipdef) (n : nat)
  : list (spi_ws2812b_chipdef * Z * Z) :=
  map (fun k => (cd, Z.of_nat k, led_ctrl_cmd_len cd * Z.of_nat k)) (seq 0 n).

Definition buffer_size (d : device) : option nat :=
  option_map (@length Z) (chip_cmd_buffer d).

(** ** The blocking brightness setter

    [ws2812b_rgb_led_brightness_set_blocking] is cut at the points where
    another caller can be scheduled; one call is one [thread] walking
    through the program points below. *)

Inductive pc : Type :=
| AtAlloc      (* lines 112-117: frame length, kzalloc *)
| AtLock       (* line 119: mutex_lock(&led->mutex) *)
| AtScale      (* lines 121-123: scale, compose the pixel *)
| AtSave       (* line 126: memcpy into the LED's slot *)
| AtCopy       (* lines 125, 129-130: memcpy of the group buffer *)
| AtWrite      (* line 131: spi_write is entered *)
| InWrite      (* line 131: spi_write returns *)
| AtUnlock     (* lines 133-137: mutex_unlock, kfree, return *)
| Returned.

(** The locals of one call, and what its environment will answer:
    [t_alloc_ok] for [kzalloc], [t_spi_ret] for [spi_write]. *)
Record thread : Type := mk_thread {
  t_led : nat;
  t_brightness : Z;
  t_alloc_ok : bool;
  t_spi_ret : Z;
  t_pc : pc;
  ctrl_cmd_len : Z;
  ctrl_cmd_head : list Z;
  spix : ws2812b_pixel;
  ret : Z
}.

Definition enter (k : nat) (brightness : Z) (alloc_ok : bool) (spi_ret : Z)
  : thread :=
  {| t_led := k; t_brightness := brightness; t_alloc_ok := alloc_ok;
     t_spi_ret := spi_ret; t_pc := AtAlloc; ctrl_cmd_len := 0;
     ctrl_cmd_head := []; spix := spix_on_entry; ret := 0 |}.

Definition goto (t : thread) (p : pc) : thread :=
  {| t_led := t_led t; t_brightness := t_brightness t;
     t_alloc_ok := t_alloc_ok t; t_spi_ret := t_spi_ret t; t_pc := p;
     ctrl_cmd_len := ctrl_cmd_len t; ctrl_cmd_head := ctrl_cmd_head t;
     spix := spix t; ret := ret t |}.

Definition with_frame (t : thread) (len : Z) (head : list Z) : thread :=
  {| t_led := t_led t; t_brightness := t_brightness t;
     t_alloc_ok := t_alloc_ok t; t_spi_ret := t_spi_ret t; t_pc := t_pc t;
     ctrl_cmd_len := len; ctrl_cmd_head := head;
     spix := spix t; ret := ret t |}.

Definition with_spix (t : thread) (p : ws2812b_pixel) : thread :=
  {| t_led := t_led t; t_brightness := t_brightness t;
     t_alloc_ok := t_alloc_ok t; t_spi_ret := t_spi_ret t; t_pc := t_pc t;
     ctrl_cmd_len := ctrl_cmd_len t; ctrl_cmd_head := ctrl_cmd_head t;
     spix := p; ret := ret t |}.

Definition with_ret (t : thread) (v : Z) : thread :=
  {| t_led := t_led t; t_brightness := t_brightness t;
     t_alloc_ok := t_alloc_ok t; t_spi_ret := t_spi_ret t; t_pc := t_pc t;
     ctrl_cmd_len := ctrl_cmd_len t; ctrl_cmd_head := ctrl_cmd_head t;
     spix := spix t; ret := v |}.

Inductive step_result : Type :=
| Progress (d : device) (t : thread)
| Blocked
| Fault.

Definition progress (x : option (device * thread)) : step_result :=
  match x with
  | Some (d, t) => Progress d t
  | None => Fault
  end.

(** [kzalloc(n, GFP_KERNEL)] when it succeeds. *)
Definition kzalloc (n : Z) : list Z := repeat 0 (Z.to_nat n).

(** [mc_ldev->subled_info[i].brightness] converted to [unsigned char]. *)
Definition subled_brightness (mc : led_classdev_mc) (i : nat) : option Z :=
  s <- nth_error (subled_info mc) i ;; Some (to_u8 (brightness s)).

Section Setter.

(** The multicolor class helper of the kernel, which scales the requested
    brightness into the sub-LED brightness values.  It is not part of
    this driver; every statement below holds whatever it computes. *)
Variable led_mc_calc_color_components : led_classdev_mc -> Z -> led_classdev_mc.

Definition step_alloc (d : device) (t : thread) : option (device * thread) :=
  led <- nth_error (leds d) (t_led t) ;;
  let len := to_u8 (chip_num (cdef led) * led_ctrl_cmd_len (cdef led)) in
  if t_alloc_ok t
  then Some (d, goto (with_frame t len (kzalloc (len + 2))) AtLock)
  else Some (d, goto (with_ret t (- ENOMEM)) Returned).

Definition step_scale (d : device) (t : thread) : option (device * thread) :=
  led <- nth_error (leds d) (t_led t) ;;
  let mc := led_mc_calc_color_components (mc_ldev led) (t_brightness t) in
  d <- store_led d (t_led t) (with_mc_ldev led mc) ;;
  rv <- subled_brightness mc 0 ;;
  gv <- subled_brightness mc 1 ;;
  bv <- subled_brightness mc 2 ;;
  p <- ws2812b_set_pixel_value (spix t) rv gv bv ;;
  Some (d, goto (with_spix t p) AtSave).

Definition step_save (d : device) (t : thread) : option (device * thread) :=
  led <- nth_error (leds d) (t_led t) ;;
  buf <- chip_cmd_buffer d ;;
  buf <- mem_write buf (led_ctrl_cmd led) (pixel_bytes (spix t)) ;;
  Some (with_buffer d buf, goto t AtCopy).

Definition step_copy (d : device) (t : thread) : option (device * thread) :=
  led <- nth_error (leds d) (t_led t) ;;
  buf <- chip_cmd_buffer d ;;
  let ctrl_cmd_payload := 1 in
  src <- mem_read buf
           (led_ctrl_cmd led - led_ctrl_cmd_len (cdef led) * chip_id led)
           (led_ctrl_cmd_len (cdef led) * chip_num (cdef led)) ;;
  head <- mem_write (ctrl_cmd_head t) ctrl_cmd_payload src ;;
  Some (d, goto (with_frame t (ctrl_cmd_len t) head) AtWrite).

Definition step_write (d : device) (t : thread) : option (device * thread) :=
  frame <- mem_read (ctrl_cmd_head t) 0 (ctrl_cmd_len t + 2) ;;
  Some (with_bus d (bus d ++ [WriteCall (t_led t) frame]), goto t InWrite).

Definition step_written (d : device) (t : thread) : option (device * thread) :=
  Some (with_bus d (bus d ++ [WriteReturn (t_led t) (t_spi_ret t)]),
        goto (with_ret t (t_spi_ret t)) AtUnlock).

Definition step_unlock (d : device) (t : thread) : option (device * thread) :=
  led <- nth_error (leds d) (t_led t) ;;
  d <- store_led d (t_led t) (with_mutex led false) ;;
  Some (d, goto t Returned).

Definition step (d : device) (t : thread) : step_result :=
  match t_pc t with
  | AtAlloc => progress (step_alloc d t)
  | AtLock =>
      match nth_error (leds d) (t_led t) with
      | None => Fault
      | Some led =>
          if mutex led then Blocked
          else progress (d <- store_led d (t_led t) (with_mutex led true) ;;
                         Some (d, goto t AtScale))
      end
  | AtScale => progress (step_scale d t)
  | AtSave => progress (step_save d t)
  | AtCopy => progress (step_copy d t)
  | AtWrite => progress (step_write d t)
  | InWrite => progress (step_written d t)
  | AtUnlock => progress (step_unlock d t)
  | Returned => Blocked
  end.

Definition returned (t : thread) : bool :=
  match t_pc t with
  | Returned => true
  | _ => false
  end.

(** A call that nobody interrupts: the steps in a row until the call
    returns.  [None] when the call faults or waits on a held mutex. *)
Fixpoint run_call (fuel : nat) (d : device) (t : thread) : option (Z * device) :=
  if returned t then Some (ret t, d)
  else
    match fuel with
    | O => None
    | S fuel' =>
        match step d t with
        | Progress d' t' => run_call fuel' d' t'
        | Blocked | Fault => None
        end
    end.

Definition ws2812b_rgb_led_brightness_set_blocking
    (alloc_ok : bool) (spi_ret : Z) (d : device) (k : nat) (brightness : Z)
  : option (Z * device) :=
  run_call 8 d (enter k brightness alloc_ok spi_ret).

(** *** Preconditions of a call

    What the probe sets up for every LED and every call relies on: the
    LED's pointer is the start of its own slot inside the group buffer,
    a slot holds at least a pixel, the buffer has the size the chip
    definition gives it, the LED's mutex is free, and the scaling helper
    leaves the three sub-LEDs the driver reads. *)
Definition call_ready (d : device) (k : nat) (brightness : Z) : bool :=
  match nth_error (leds d) k, chip_cmd_buffer d with
  | Some led, Some buf =>
      let cd := cdef led in
      negb (mutex led)
      && (led_ctrl_cmd led =? led_ctrl_cmd_len cd * chip_id led)
      && (0 <=? chip_id led) && (chip_id led <? chip_num cd)
      && (sizeof_spix <=? led_ctrl_cmd_len cd)
      && (Z.of_nat (length buf) =? led_ctrl_cmd_len cd * chip_num cd)
      && (3 <=? length (subled_info
                          (led_mc_calc_color_components (mc_ldev led)
                                                        brightness)))%nat
  | _, _ => false
  end.

(** The byte count of the whole group fits the [unsigned char] that
    holds the frame length. *)
Definition frame_fits (cd : spi_ws2812b_chipdef) : bool :=
  chip_num cd * led_ctrl_cmd_len cd <? 256.

(** The three channel values handed to the composer (lines 122-123). *)
Definition channel_values (mc : led_classdev_mc) : option (Z * Z * Z) :=
  rv <- subled_brightness mc 0 ;;
  gv <- subled_brightness mc 1 ;;
  bv <- subled_brightness mc 2 ;;
  Some (rv, gv, bv).

(** *** What holds between calls

    [device_ok]: every LED of the device is unlocked, points at the
    slot of its own chip number inside a buffer of the size its chip
    definition gives, a slot holds a pixel, the whole group fits the
    frame length byte, and the three sub-LEDs exist. *)
Definition led_ok (buf : list Z) (led : spi_ws2812b_led) : bool :=
  let cd := cdef led in
  negb (mutex led)
  && (led_ctrl_cmd led =? led_ctrl_cmd_len cd * chip_id led)
  && (0 <=? chip_id led) && (chip_id led <? chip_num cd)
  && (sizeof_spix <=? led_ctrl_cmd_len cd)
  && (Z.of_nat (length buf) =? led_ctrl_cmd_len cd * chip_num cd)
  && frame_fits cd
  && (3 <=? length (subled_info (mc_ldev led)))%nat.

Definition device_ok (d : device) : bool :=
  match chip_cmd_buffer d with
  | Some buf => forallb (led_ok buf) (leds d)
  | None => false
  end.

(** The slot of LED [k] holds the encoding of the sub-LED brightness
    values stored in that LED. *)
Definition slot_in_sync (d : device) (k : nat) : Prop :=
  exists led buf rv gv bv p,
    nth_error (leds d) k = Some led
    /\ chip_cmd_buffer d = Some buf
    /\ channel_values (mc_ldev led) = Some (rv, gv, bv)
    /\ ws2812b_set_pixel_value spix_on_entry rv gv bv = Some p
    /\ mem_read buf (led_ctrl_cmd led) sizeof_spix = Some (pixel_bytes p).

(** The scaling helper keeps the number of sub-LEDs. *)
Definition keeps_subleds : Prop :=
  forall mc x,
    length (subled_info (led_mc_calc_color_components mc x))
    = length (subled_info mc).

(** Calls one after the other, each with the answers of its
    environment; the values returned are collected in order. *)
Record request : Type := mk_request {
  rq_led : nat;
  rq_brightness : Z;
  rq_alloc_ok : bool;
  rq_spi_ret : Z
}.

Fixpoint serve (d : device) (rs : list request) : option (list Z * device) :=
  match rs with
  | [] => Some ([], d)
  | rq :: rs' =>
      res <- ws2812b_rgb_led_brightness_set_blocking
               (rq_alloc_ok rq) (rq_spi_ret rq) d (rq_led rq)
               (rq_brightness rq) ;;
      rest <- serve (snd res) rs' ;;
      Some (fst res :: fst rest, snd rest)
  end.

(** The program points between [mutex_lock] and [mutex_unlock]. *)
Definition in_critical_section (p : pc) : bool :=
  match p with
  | AtScale | AtSave | AtCopy | AtWrite | InWrite | AtUnlock => true
  | AtAlloc | AtLock | Returned => false
  end.

Definition mutex_of (d : device) (k : nat) : option bool :=
  option_map mutex (nth_error (leds d) k).

(** ** Concurrent callers

    Several calls in flight on one device; a schedule names, step by
    step, the call that runs next.  A call that cannot move (its mutex is
    held, or it has returned) makes the schedule invalid. *)

Record config : Type := mk_config {
  dev : device;
  threads : list thread
}.

Definition sched (c : config) (tid : nat) : option config :=
  t <- nth_error (threads c) tid ;;
  match step (dev c) t with
  | Progress d' t' =>
      ts <- list_set (threads c) tid t' ;;
      Some {| dev := d'; threads := ts |}
  | Blocked | Fault => None
  end.

Fixpoint run_schedule (c : config) (s : list nat) : option config :=
  match s with
  | [] => Some c
  | tid :: s' => c' <- sched c tid ;; run_schedule c' s'
  end.

Definition at_pc (c : config) (tid : nat) (p : pc) : Prop :=
  exists t, nth_error (threads c) tid = Some t /\ t_pc t = p.

(** Callers of one LED exclude each other: whoever is between lock and
    unlock holds the mutex of its LED, and no second caller of that LED
    is there too. *)
Definition exclusive (c : config) : Prop :=
  (forall i t,
      nth_error (threads c) i = Some t ->
      in_critical_section (t_pc t) = true ->
      mutex_of (dev c) (t_led t) = Some true)
  /\ (forall i j ti tj,
         i <> j ->
         nth_error (threads c) i = Some ti ->
         nth_error (threads c) j = Some tj ->
         t_led ti = t_led tj ->
         in_critical_section (t_pc ti) = true ->
         in_critical_section (t_pc tj) = false).

(** ** Probe *)

(** An available child node of the SPI device node, with its
    [default-state] property when it has one. *)
Record device_node : Type := mk_node {
  default_state : option String.string
}.

(** The answers of the environment during one probe: whether each
    allocation succeeds, and what [spi_write] and the class registration
    return for the [i]-th child. *)
Record probe_env : Type := mk_probe_env {
  buffer_alloc_ok : bool;
  led_alloc_ok : nat -> bool;
  subled_alloc_ok : nat -> bool;
  frame_alloc_ok : nat -> bool;
  spi_write_ret : nat -> Z;
  register_ret : nat -> Z
}.

Definition zeroed_subled : mc_subled :=
  {| color_index := LED_COLOR_ID_WHITE; brightness := 0; intensity := 0;
     channel := 0 |}.

(** [subled_info[i].color_index = c; subled_info[i].channel = ch;] *)
Definition assign_subled (subs : list mc_subled) (i : nat) (c : led_color_id)
    (ch : Z) : option (list mc_subled) :=
  s <- nth_error subs i ;;
  list_set subs i {| color_index := c; brightness := brightness s;
                     intensity := intensity s; channel := ch |}.

(** Lines 186-195. *)
Definition init_subled_info (num_colors : Z) : option (list mc_subled) :=
  let subs := repeat zeroed_subled (Z.to_nat num_colors) in
  subs <- assign_subled subs 0 LED_COLOR_ID_RED 0 ;;
  subs <- assign_subled subs 1 LED_COLOR_ID_GREEN 1 ;;
  assign_subled subs 2 LED_COLOR_ID_BLUE 2.

(** Lines 197-207. *)
Definition initial_cdev (chip_node : device_node) : led_classdev :=
  let cdev := {| cdev_brightness := LED_OFF; max_brightness := LED_FULL |} in
  match default_state chip_node with
  | Some state =>
      if String.eqb state "on"%string
      then {| cdev_brightness := max_brightness cdev;
              max_brightness := max_brightness cdev |}
      else cdev
  | None => cdev
  end.

(** The loop body of [for_each_available_child_of_node] for the [i]-th
    child; the LED object enters the store once its fields are set.  The
    result of the initial brightness call is dropped, as in the source. *)
Fixpoint probe_children (env : probe_env) (cdef : spi_ws2812b_chipdef)
    (d : device) (cur_chip_id : Z) (i : nat) (children : list device_node)
  : option (Z * device) :=
  match children with
  | [] => Some (0, d)
  | chip_node :: rest =>
      if negb (led_alloc_ok env i) then Some (- ENOMEM, d) else
      if negb (subled_alloc_ok env i) then Some (- ENOMEM, d) else
      subs <- init_subled_info (led_num_channels cdef) ;;
      let cdev := initial_cdev chip_node in
      let led :=
        {| mc_ldev := {| led_cdev := cdev;
                         num_colors := led_num_channels cdef;
                         subled_info := subs |};
           mutex := false;
           cdef := cdef;
           led_ctrl_cmd := led_ctrl_cmd_len cdef * cur_chip_id;
           chip_id := cur_chip_id |} in
      let k := length (leds d) in
      let d := with_leds d (leds d ++ [led]) in
      res <- ws2812b_rgb_led_brightness_set_blocking
               (frame_alloc_ok env i) (spi_write_ret env i) d k
               (cdev_brightness cdev) ;;
      let d := with_drvdata (snd res) k in
      if register_ret env i <? 0 then Some (- ENOMEM, d) else
      let d := with_registered d (registered d ++ [k]) in
      probe_children env cdef d (to_u8 (cur_chip_id + 1)) (S i) rest
  end.

(** [match_data] is what [device_get_match_data] returns; [children]
    are the available child nodes in device order. *)
Definition spi_ws2812b_probe (env : probe_env)
    (match_data : option spi_ws2812b_chipdef) (children : list device_node)
    (d : device) : option (Z * device) :=
  match match_data with
  | None => Some (- ENODEV, d)
  | Some cdef =>
      let chip_count := Z.of_nat (length children) in
      if (chip_count =? 0) || negb (chip_count =? chip_num cdef)
      then Some (- ENODEV, d)
      else if negb (buffer_alloc_ok env) then Some (- ENOMEM, d)
      else
        let d := with_buffer d
                   (kzalloc (led_ctrl_cmd_len cdef * chip_num cdef)) in
        probe_children env cdef d 0 0 children
  end.

End Setter.

End Driver.

(** ** Concrete instances *)

Module Examples.
Import Encoder Pixel Driver.

(** A scaling in the manner of the kernel's multicolor class, used to
    run the model on examples: every sub-LED gets
    [brightness * intensity / max_brightness], the product taken in 32
    bits.  The kernel helper does not return when [max_brightness] is
    zero; this function is only applied to LEDs whose [max_brightness]
    is [LED_FULL]. *)
Definition linear_scaling (mc : led_classdev_mc) (value : Z) : led_classdev_mc :=
  {| led_cdev := led_cdev mc;
     num_colors := num_colors mc;
     subled_info :=
       map (fun s =>
              {| color_index := color_index s;
                 brightness :=
                   Z.quot ((value * intensity s) mod 2 ^ 32)
                          (max_brightness (led_cdev mc));
                 intensity := intensity s;
                 channel := channel s |})
           (subled_info mc) |}.

Definition rgb_subleds (ri gi bi : Z) : list mc_subled :=
  [ {| color_index := LED_COLOR_ID_RED; brightness := 0; intensity := ri;
       channel := 0 |};
    {| color_index := LED_COLOR_ID_GREEN; brightness := 0; intensity := gi;
       channel := 1 |};
    {| color_index := LED_COLOR_ID_BLUE; brightness := 0; intensity := bi;
       channel := 2 |} ].

(** An LED object as the probe leaves it, with the colour mix
    ([ri], [gi], [bi]) written to it afterwards. *)
Definition mixed_led (cd : spi_ws2812b_chipdef) (id : Z) (ri gi bi : Z)
  : spi_ws2812b_led :=
  {| mc_ldev := {| led_cdev := {| cdev_brightness := LED_OFF;
                                  max_brightness := LED_FULL |};
                   num_colors := led_num_channels cd;
                   subled_info := rgb_subleds ri gi bi |};
     mutex := false;
     cdef := cd;
     led_ctrl_cmd := led_ctrl_cmd_len cd * id;
     chip_id := id |}.

(** The router's two chips: LED 0 mixed pure red, LED 1 mixed pure
    blue, both dark so far. *)
Definition router : device :=
  {| chip_cmd_buffer := Some (kzalloc 18);
     leds := [ mixed_led miwifi_ws2812b_spi_led 0 255 0 0;
               mixed_led miwifi_ws2812b_spi_led 1 0 0 255 ];
     drvdata := Some 1%nat;
     registered := [0%nat; 1%nat];
     bus := [] |}.

Definition quiet_env : probe_env :=
  {| buffer_alloc_ok := true;
     led_alloc_ok := fun _ => true;
     subled_alloc_ok := fun _ => true;
     frame_alloc_ok := fun _ => true;
     spi_write_ret := fun _ => 0;
     register_ret := fun _ => 0 |}.

Definition two_nodes : list device_node :=
  [ {| default_state := Some "on"%string |}; {| default_state := None |} ].

(** A chain of 32 chips of nine bytes each. *)
Definition chain32 : spi_ws2812b_chipdef :=
  {| chip_num := 32; led_ctrl_cmd_len := 9; led_num_channels := 3 |}.

(** The device of such a chain when the probe loop makes its first
    brightness call: the buffer of 288 bytes and the first LED. *)
Definition chain32_device : device :=
  {| chip_cmd_buffer := Some (kzalloc 288);
     leds := [ mixed_led chain32 0 0 0 0 ];
     drvdata := None;
     registered := [];
     bus := [] |}.

(** The router right after a probe that met no failure. *)
Definition probed_router : device :=
  match spi_ws2812b_probe linear_scaling quiet_env
          (Some miwifi_ws2812b_spi_led) two_nodes unbound_device with
  | Some (_, d) => d
  | None => unbound_device
  end.

(** Two callers on the probed router, one per LED. *)
Definition two_callers : config :=
  {| dev := probed_router;
     threads := [ enter 0 255 true 0; enter 1 255 true 0 ] |}.

(** The same two callers once a colour mix has been written. *)
Definition two_callers_mixed : config :=
  {| dev := router;
     threads := [ enter 0 255 true 0; enter 1 255 true 0 ] |}.

(** Two callers on the same LED. *)
Definition same_led_callers : config :=
  {| dev := router;
     threads := [ enter 0 255 true 0; enter 0 128 true 0 ] |}.

(** The router after LED 0 has been set to full red, and after that
    call has met a failing allocation instead. *)
Definition router_after_red : device :=
  match ws2812b_rgb_led_brightness_set_blocking linear_scaling true 0 router
          0 255 with
  | Some (_, d) => d
  | None => router
  end.

(** Two callers of LED 0, the first inside the critical section and
    the second waiting at the mutex. *)
Definition same_led_midway : config :=
  match run_schedule linear_scaling same_led_callers [0; 0; 1]%nat with
  | Some c => c
  | None => same_led_callers
  end.

Definition midway_first : thread :=
  nth 0 (threads same_led_midway) (enter 0 0 true 0).

Definition midway_second : thread :=
  nth 1 (threads same_led_midway) (enter 0 0 true 0).

(** A few requests on the router: both LEDs, one failed allocation,
    one failed bus write. *)
Definition some_requests : list request :=
  [ {| rq_led := 0; rq_brightness := 255; rq_alloc_ok := true;
       rq_spi_ret := 0 |};
    {| rq_led := 1; rq_brightness := 128; rq_alloc_ok := false;
       rq_spi_ret := 0 |};
    {| rq_led := 1; rq_brightness := 64; rq_alloc_ok := true;
       rq_spi_ret := -5 |} ].

(** The router after a failed bus write on LED 0. *)
Definition router_after_failed_write : device :=
  match ws2812b_rgb_led_brightness_set_blocking linear_scaling true (-12)
          router 0 255 with
  | Some (_, d) => d
  | None => router
  end.

(** The probed router after [some_requests] have been served. *)
Definition served_router : device :=
  match serve linear_scaling probed_router some_requests with
  | Some (_, d) => d
  | None => probed_router
  end.

(** An environment in which the registration of the second LED fails
    with [-EINVAL], and what the probe leaves then. *)
Definition second_registration_fails : probe_env :=
  {| buffer_alloc_ok := true;
     led_alloc_ok := fun _ => true;
     subled_alloc_ok := fun _ => true;
     frame_alloc_ok := fun _ => true;
     spi_write_ret := fun _ => -5;
     register_ret := fun i => if Nat.eqb i 1 then -22 else 0 |}.

Definition half_probed_router : device :=
  match spi_ws2812b_probe linear_scaling second_registration_fails
          (Some miwifi_ws2812b_spi_led) two_nodes unbound_device with
  | Some (_, d) => d
  | None => unbound_device
  end.

End Examples.

(** * Properties *)

Import Encoder Pixel Driver Examples.

(** Projections out of thread, device and LED records. *)
Ltac thread_simpl :=
  cbn [goto with_frame with_spix with_ret returned step progress bind
       t_led t_brightness t_alloc_ok t_spi_ret t_pc
       ctrl_cmd_len ctrl_cmd_head spix ret].

Ltac device_simpl :=
  cbn [with_leds with_buffer with_bus with_drvdata with_registered
       chip_cmd_buffer leds drvdata registered bus].

Ltac led_simpl :=
  cbn [with_mutex with_mc_ldev mc_ldev mutex cdef led_ctrl_cmd chip_id].

Ltac thread_simpl_in H :=
  cbn [goto with_frame with_spix with_ret returned step progress bind
       t_led t_brightness t_alloc_ok t_spi_ret t_pc
       ctrl_cmd_len ctrl_cmd_head spix ret] in H.

Ltac thread_norm_in H :=
  thread_simpl_in H;
  unfold goto, with_frame, with_spix, with_ret in H;
  thread_simpl_in H.

Ltac device_simpl_in H :=
  cbn [with_leds with_buffer with_bus with_drvdata with_registered
       chip_cmd_buffer leds drvdata registered bus] in H.

Ltac led_simpl_in H :=
  cbn [with_mutex with_mc_ldev mc_ldev mutex cdef led_ctrl_cmd chip_id] in H.

(** ** Exhaustive checks over the 8-bit values *)

Lemma all_u8_complete (v : Z) : 0 <= v < 256 -> In v all_u8.
Proof.
  intros Hv. unfold all_u8.
  replace v with (Z.of_nat (Z.to_nat v)) by lia.
  apply in_map, in_seq. lia.
Qed.

Lemma forall_u8 (P : Z -> bool) :
  forallb P all_u8 = true -> forall v, 0 <= v < 256 -> P v = true.
Proof.
  intros Hall v Hv.
  rewrite forallb_forall in Hall. apply Hall, all_u8_complete, Hv.
Qed.

Lemma index_in_range (a : list Z) (i : Z) :
  0 <= i < Z.of_nat (length a) -> exists x, index a i = Some x.
Proof.
  intros [Hlo Hhi]. unfold index.
  destruct (0 <=? i) eqn:E; [ | apply Z.leb_gt in E; lia ].
  destruct (nth_error a (Z.to_nat i)) as [x | ] eqn:Hn.
  - now exists x.
  - apply nth_error_None in Hn. lia.
Qed.

Lemma land_mask_range (x : Z) (n : Z) :
  0 <= n -> 0 <= Z.land x (Z.ones n) < 2 ^ n.
Proof.
  intros Hn. rewrite Z.land_ones by exact Hn.
  apply Z.mod_pos_bound, Z.pow_pos_nonneg; lia.
Qed.

Lemma index_h_range (val : Z) : 0 <= index_h val < 8.
Proof. exact (land_mask_range (Z.shiftr val 5) 3 ltac:(lia)). Qed.

Lemma index_m_range (val : Z) : 0 <= index_m val < 4.
Proof. exact (land_mask_range (Z.shiftr val 3) 2 ltac:(lia)). Qed.

Lemma index_l_range (val : Z) : 0 <= index_l val < 8.
Proof. exact (land_mask_range (Z.shiftr val 0) 3 ltac:(lia)). Qed.

Lemma set_encoded_pixel_total (val : Z) :
  exists e, ws2812b_set_encoded_pixel val = Some e.
Proof.
  unfold ws2812b_set_encoded_pixel.
  destruct (index_in_range byte2encoding_h (index_h val)) as [eh ->];
    [ pose proof (index_h_range val); simpl; lia | ].
  destruct (index_in_range byte2encoding_m (index_m val)) as [em ->];
    [ pose proof (index_m_range val); simpl; lia | ].
  destruct (index_in_range byte2encoding_l (index_l val)) as [el ->];
    [ pose proof (index_l_range val); simpl; lia | ].
  simpl. eauto.
Qed.

Lemma encode_total (val : Z) :
  exists e, ws2812b_set_encoded_pixel val = Some e
            /\ encode val = Some (encoding_bytes e).
Proof.
  destruct (set_encoded_pixel_total val) as [e He].
  exists e. split; [ exact He | ]. unfold encode. now rewrite He.
Qed.

(** C10 (encoder totality): for every input value the three table
    subscripts computed by [ws2812b_set_encoded_pixel] lie inside their
    tables (below 8, 4 and 8), each lookup yields an entry, and the
    encoder returns a triplet. *)
Theorem encoder_subscripts_in_bounds (val : Z) :
  (0 <= index_h val < 8 /\ Z.of_nat (length byte2encoding_h) = 8)
  /\ (0 <= index_m val < 4 /\ Z.of_nat (length byte2encoding_m) = 4)
  /\ (0 <= index_l val < 8 /\ Z.of_nat (length byte2encoding_l) = 8)
  /\ (exists eh em el,
         index byte2encoding_h (index_h val) = Some eh
         /\ index byte2encoding_m (index_m val) = Some em
         /\ index byte2encoding_l (index_l val) = Some el)
  /\ exists e, ws2812b_set_encoded_pixel val = Some e.
Proof.
  pose proof (index_h_range val) as Hh.
  pose proof (index_m_range val) as Hm.
  pose proof (index_l_range val) as Hl.
  repeat split; try lia; try reflexivity.
  - destruct (index_in_range byte2encoding_h (index_h val)) as [eh Eh];
      [ simpl; lia | ].
    destruct (index_in_range byte2encoding_m (index_m val)) as [em Em];
      [ simpl; lia | ].
    destruct (index_in_range byte2encoding_l (index_l val)) as [el El];
      [ simpl; lia | ].
    exists eh, em, el. auto.
  - apply set_encoded_pixel_total.
Qed.

(** ** Round trip and waveform *)

Lemma entry_is_true (tbl : list Z) (i x : Z) :
  entry_is tbl i x = true -> index tbl i = Some x.
Proof.
  unfold entry_is. destruct (index tbl i) as [y | ]; [ | discriminate ].
  intros E. apply Z.eqb_eq in E. now subst.
Qed.

(** C1 (round trip): for every 8-bit value, encoding it through the
    three tables and decoding the three oversampled bytes gives the
    value back. *)
Theorem decode_encode_round_trip (v : Z) :
  0 <= v < 256 ->
  exists e, ws2812b_set_encoded_pixel v = Some e /\ decode e = Some v.
Proof.
  intros Hv.
  assert (Hc : round_trip_check v = true).
  { revert v Hv. apply forall_u8. vm_compute. reflexivity. }
  unfold round_trip_check in Hc.
  destruct (ws2812b_set_encoded_pixel v) as [e | ]; [ | discriminate ].
  exists e. split; [ reflexivity | ].
  destruct (decode e) as [w | ]; [ | discriminate ].
  apply Z.eqb_eq in Hc. now subst.
Qed.

Lemma decode_encode_round_trip_witness :
  exists e, ws2812b_set_encoded_pixel 0xa5 = Some e /\ decode e = Some 0xa5.
Proof. apply (decode_encode_round_trip 0xa5). lia. Defined.

(** C8 (waveform): for every 8-bit value the encoder yields exactly
    three bytes, the first chosen by bits 7-5, the second by bits 4-3
    and the third by bits 2-0; in the 24-bit stream they form, the
    aligned 3-bit group of each logical bit is [100] when the bit is
    clear and [110] when it is set. *)
Theorem encoding_is_oversampled_waveform (v : Z) :
  0 <= v < 256 ->
  exists e,
    ws2812b_set_encoded_pixel v = Some e
    /\ length (encoding_bytes e) = 3%nat
    /\ Forall (fun x => 0 <= x < 256) (encoding_bytes e)
    /\ index byte2encoding_h ((v / 32) mod 8) = Some (h e)
    /\ index byte2encoding_m ((v / 8) mod 4) = Some (m e)
    /\ index byte2encoding_l (v mod 8) = Some (l e)
    /\ forall k, 0 <= k < 8 ->
         symbol (stream e) k = pattern_of (Z.testbit v k)
         /\ (symbol (stream e) k = pattern_zero
             \/ symbol (stream e) k = pattern_one).
Proof.
  intros Hv.
  assert (Hc : waveform_check v = true).
  { revert v Hv. apply forall_u8. vm_compute. reflexivity. }
  unfold waveform_check in Hc.
  destruct (ws2812b_set_encoded_pixel v) as [e | ]; [ | discriminate ].
  do 4 (apply andb_prop in Hc; destruct Hc as [Hc ?]).
  exists e. split; [ reflexivity | ]. split; [ reflexivity | ].
  split.
  { rewrite forallb_forall in Hc. apply Forall_forall. intros x Hx.
    specialize (Hc x Hx). unfold is_u8 in Hc.
    apply andb_prop in Hc. destruct Hc as [Hlo Hhi].
    apply Z.leb_le in Hlo. apply Z.ltb_lt in Hhi. lia. }
  repeat (split; [ now apply entry_is_true | ]).
  intros k Hk.
  assert (Hsym : symbol (stream e) k = pattern_of (Z.testbit v k)).
  { match goal with
    | Hf : forallb _ logical_bits = true |- _ =>
        rewrite forallb_forall in Hf; apply Z.eqb_eq, Hf
    end.
    unfold logical_bits. simpl.
    assert (k = 0 \/ k = 1 \/ k = 2 \/ k = 3 \/ k = 4 \/ k = 5 \/ k = 6 \/ k = 7)
      by lia.
    intuition auto. }
  split; [ exact Hsym | ].
  rewrite Hsym. destruct (Z.testbit v k); simpl; auto.
Qed.

Lemma encoding_is_oversampled_waveform_witness :
  exists e,
    ws2812b_set_encoded_pixel 0x5c = Some e
    /\ length (encoding_bytes e) = 3%nat
    /\ Forall (fun x => 0 <= x < 256) (encoding_bytes e)
    /\ index byte2encoding_h ((0x5c / 32) mod 8) = Some (h e)
    /\ index byte2encoding_m ((0x5c / 8) mod 4) = Some (m e)
    /\ index byte2encoding_l (0x5c mod 8) = Some (l e)
    /\ forall k, 0 <= k < 8 ->
         symbol (stream e) k = pattern_of (Z.testbit 0x5c k)
         /\ (symbol (stream e) k = pattern_zero
             \/ symbol (stream e) k = pattern_one).
Proof. apply (encoding_is_oversampled_waveform 0x5c). lia. Defined.

(** ** Lists and memory blocks *)

Lemma list_set_defined {A : Type} (xs : list A) (n : nat) (y x : A) :
  nth_error xs n = Some y -> exists xs', list_set xs n x = Some xs'.
Proof.
  revert n. induction xs as [ | a tl IH]; intros [ | n] Hn; simpl in *;
    try discriminate.
  - eauto.
  - destruct (IH n Hn) as [tl' ->]. simpl. eauto.
Qed.

Lemma list_set_same {A : Type} (xs xs' : list A) (n : nat) (x : A) :
  list_set xs n x = Some xs' -> nth_error xs' n = Some x.
Proof.
  revert n xs'. induction xs as [ | a tl IH]; intros [ | n] xs' H;
    simpl in *; try discriminate.
  - now inversion H.
  - destruct (list_set tl n x) as [tl' | ] eqn:E; [ | discriminate ].
    simpl in H. inversion H. subst. simpl. now apply IH.
Qed.

Lemma list_set_other {A : Type} (xs xs' : list A) (n n' : nat) (x : A) :
  list_set xs n x = Some xs' -> n' <> n ->
  nth_error xs' n' = nth_error xs n'.
Proof.
  revert n n' xs'. induction xs as [ | a tl IH]; intros [ | n] [ | n'] xs' H Hne;
    simpl in *; try discriminate; try congruence.
  - now inversion H.
  - destruct (list_set tl n x) as [tl' | ]; [ | discriminate ].
    simpl in H. now inversion H.
  - destruct (list_set tl n x) as [tl' | ] eqn:E; [ | discriminate ].
    simpl in H. inversion H. subst. simpl. apply (IH n); auto.
Qed.

Lemma list_set_again {A : Type} (xs xs' : list A) (n : nat) (x y : A) :
  list_set xs n x = Some xs' -> list_set xs' n y = list_set xs n y.
Proof.
  revert n xs'. induction xs as [ | a tl IH]; intros [ | n] xs' H;
    simpl in *; try discriminate.
  - inversion H. reflexivity.
  - destruct (list_set tl n x) as [tl' | ] eqn:E; [ | discriminate ].
    simpl in H. inversion H. subst. simpl. now rewrite (IH n tl').
Qed.

Lemma list_set_length {A : Type} (xs xs' : list A) (n : nat) (x : A) :
  list_set xs n x = Some xs' -> length xs' = length xs.
Proof.
  revert n xs'. induction xs as [ | a tl IH]; intros [ | n] xs' H;
    simpl in *; try discriminate.
  - inversion H. reflexivity.
  - destruct (list_set tl n x) as [tl' | ] eqn:E; [ | discriminate ].
    simpl in H. inversion H. subst. simpl. f_equal. now apply (IH n).
Qed.

Lemma mem_write_defined (mem src : list Z) (off : Z) :
  0 <= off -> off + Z.of_nat (length src) <= Z.of_nat (length mem) ->
  mem_write mem off src =
    Some (firstn (Z.to_nat off) mem ++ src
          ++ skipn (Z.to_nat off + length src) mem).
Proof.
  intros H0 H1. unfold mem_write.
  destruct (0 <=? off) eqn:E0; [ | apply Z.leb_gt in E0; lia ].
  destruct (off + Z.of_nat (length src) <=? Z.of_nat (length mem)) eqn:E1;
    [ reflexivity | apply Z.leb_gt in E1; lia ].
Qed.

Lemma mem_write_overrun (mem src : list Z) (off : Z) :
  Z.of_nat (length mem) < off + Z.of_nat (length src) ->
  mem_write mem off src = None.
Proof.
  intros H. unfold mem_write.
  destruct (off + Z.of_nat (length src) <=? Z.of_nat (length mem)) eqn:E1.
  - apply Z.leb_le in E1. lia.
  - now rewrite andb_false_r.
Qed.

Lemma mem_write_length (mem mem' src : list Z) (off : Z) :
  mem_write mem off src = Some mem' -> length mem' = length mem.
Proof.
  unfold mem_write.
  destruct (0 <=? off) eqn:E0; [ | discriminate ].
  destruct (off + Z.of_nat (length src) <=? Z.of_nat (length mem)) eqn:E1;
    [ | discriminate ].
  simpl. intros H. inversion H. subst. clear H.
  apply Z.leb_le in E0, E1.
  rewrite !length_app, length_firstn, length_skipn. lia.
Qed.

(** Outside the written range a block keeps its bytes. *)
Lemma mem_write_elsewhere (mem mem' src : list Z) (off : Z) (j : nat) :
  mem_write mem off src = Some mem' ->
  (Z.of_nat j < off \/ off + Z.of_nat (length src) <= Z.of_nat j) ->
  nth_error mem' j = nth_error mem j.
Proof.
  unfold mem_write.
  destruct (0 <=? off) eqn:E0; [ | discriminate ].
  destruct (off + Z.of_nat (length src) <=? Z.of_nat (length mem)) eqn:E1;
    [ | discriminate ].
  simpl. intros H Hj. inversion H. subst. clear H.
  apply Z.leb_le in E0, E1.
  destruct Hj as [Hj | Hj].
  - rewrite nth_error_app1 by (rewrite length_firstn; lia).
    rewrite nth_error_firstn.
    destruct (j <? Z.to_nat off)%nat eqn:E; [ reflexivity | ].
    apply Nat.ltb_ge in E. lia.
  - rewrite nth_error_app2 by (rewrite length_firstn; lia).
    rewrite nth_error_app2 by (rewrite length_firstn; lia).
    rewrite nth_error_skipn, length_firstn. f_equal. lia.
Qed.

(** Inside the written range a block holds the source. *)
Lemma mem_write_read_back (mem mem' src : list Z) (off : Z) :
  mem_write mem off src = Some mem' ->
  mem_read mem' off (Z.of_nat (length src)) = Some src.
Proof.
  intros H. pose proof (mem_write_length _ _ _ _ H) as Hlen. revert H.
  unfold mem_write, mem_read. rewrite Hlen.
  destruct (0 <=? off) eqn:E0; [ | discriminate ].
  destruct (off + Z.of_nat (length src) <=? Z.of_nat (length mem)) eqn:E1;
    [ | discriminate ].
  simpl. intros H. inversion H. subst. clear H.
  apply Z.leb_le in E0, E1.
  destruct (0 <=? Z.of_nat (length src)) eqn:E2;
    [ | apply Z.leb_gt in E2; lia ].
  simpl. f_equal. rewrite Nat2Z.id.
  rewrite skipn_app, length_firstn.
  replace (Z.to_nat off - Nat.min (Z.to_nat off) (length mem))%nat with 0%nat
    by lia.
  rewrite skipn_all2 by (rewrite length_firstn; lia).
  simpl. rewrite firstn_app, Nat.sub_diag, firstn_all. simpl.
  now rewrite app_nil_r.
Qed.

Lemma mem_read_all (mem : list Z) :
  mem_read mem 0 (Z.of_nat (length mem)) = Some mem.
Proof.
  unfold mem_read. simpl.
  destruct (0 <=? Z.of_nat (length mem)) eqn:E; [ | apply Z.leb_gt in E; lia ].
  rewrite Z.leb_refl. simpl. now rewrite Nat2Z.id, firstn_all.
Qed.

Lemma kzalloc_length (n : Z) : length (kzalloc n) = Z.to_nat n.
Proof. unfold kzalloc. apply repeat_length. Qed.

(** A zeroed frame of [n + 2] bytes with [n] bytes copied to offset 1. *)
Lemma frame_assembly (src : list Z) :
  mem_write (kzalloc (Z.of_nat (length src) + 2)) 1 src = Some (0 :: src ++ [0]).
Proof.
  rewrite mem_write_defined; [ | lia | rewrite kzalloc_length; lia ].
  f_equal. unfold kzalloc.
  replace (Z.to_nat (Z.of_nat (length src) + 2)) with (S (length src + 1))
    by lia.
  simpl. f_equal. f_equal.
  change (skipn (length src) (repeat 0 (length src + 1)) = [0]).
  rewrite repeat_app, skipn_app, repeat_length, Nat.sub_diag.
  rewrite skipn_all2 by (rewrite repeat_length; lia). reflexivity.
Qed.

(** ** Pixel composer *)

Lemma set_pixel_value_layout (spix0 : ws2812b_pixel) (rv gv bv : Z) :
  exists er eg eb,
    ws2812b_set_encoded_pixel rv = Some er
    /\ ws2812b_set_encoded_pixel gv = Some eg
    /\ ws2812b_set_encoded_pixel bv = Some eb
    /\ ws2812b_set_pixel_value spix0 rv gv bv
       = Some {| r := er; g := eg; b := eb |}.
Proof.
  destruct (set_encoded_pixel_total rv) as [er Er].
  destruct (set_encoded_pixel_total gv) as [eg Eg].
  destruct (set_encoded_pixel_total bv) as [eb Eb].
  exists er, eg, eb. repeat split; auto.
  unfold ws2812b_set_pixel_value. rewrite Eg, Er, Eb. reflexivity.
Qed.

(** X15 (no stale stack data): the composer assigns every member of
    the pixel, so the nine bytes it leaves do not depend on what the
    local [spix] held before. *)
Lemma set_pixel_value_overwrites (spix0 spix1 : ws2812b_pixel) (rv gv bv : Z) :
  ws2812b_set_pixel_value spix0 rv gv bv
  = ws2812b_set_pixel_value spix1 rv gv bv.
Proof.
  destruct (set_pixel_value_layout spix0 rv gv bv) as (er & eg & eb & Er & Eg & Eb & ->).
  destruct (set_pixel_value_layout spix1 rv gv bv) as (er' & eg' & eb' & Er' & Eg' & Eb' & ->).
  congruence.
Qed.

Lemma pixel_bytes_length (p : ws2812b_pixel) :
  Z.of_nat (length (pixel_bytes p)) = sizeof_spix.
Proof. reflexivity. Qed.

Lemma composed_pixel_bytes (spix0 : ws2812b_pixel) (rv gv bv : Z) :
  exists p er eg eb,
    ws2812b_set_pixel_value spix0 rv gv bv = Some p
    /\ encode rv = Some er /\ encode gv = Some eg /\ encode bv = Some eb
    /\ pixel_bytes p = er ++ eg ++ eb.
Proof.
  destruct (set_pixel_value_layout spix0 rv gv bv)
    as (er & eg & eb & Er & Eg & Eb & Hp).
  exists {| r := er; g := eg; b := eb |},
         (encoding_bytes er), (encoding_bytes eg), (encoding_bytes eb).
  unfold encode. rewrite Er, Eg, Eb. auto.
Qed.

Lemma mem_read_defined (mem : list Z) (off len : Z) :
  0 <= off -> 0 <= len -> off + len <= Z.of_nat (length mem) ->
  mem_read mem off len
  = Some (firstn (Z.to_nat len) (skipn (Z.to_nat off) mem)).
Proof.
  intros H0 H1 H2. unfold mem_read.
  destruct (0 <=? off) eqn:E0; [ | apply Z.leb_gt in E0; lia ].
  destruct (0 <=? len) eqn:E1; [ | apply Z.leb_gt in E1; lia ].
  destruct (off + len <=? Z.of_nat (length mem)) eqn:E2;
    [ reflexivity | apply Z.leb_gt in E2; lia ].
Qed.

(** Two blocks of one size that agree on a range read the same there. *)
Lemma mem_read_agree (m1 m2 : list Z) (off len : Z) :
  length m1 = length m2 ->
  (forall j : nat, off <= Z.of_nat j < off + len ->
                   nth_error m1 j = nth_error m2 j) ->
  mem_read m1 off len = mem_read m2 off len.
Proof.
  intros Hlen Hag. unfold mem_read. rewrite Hlen.
  destruct ((0 <=? off) && (0 <=? len)
            && (off + len <=? Z.of_nat (length m2))) eqn:E; [ | reflexivity ].
  apply andb_prop in E. destruct E as [E E2].
  apply andb_prop in E. destruct E as [E0 E1].
  apply Z.leb_le in E0, E1, E2.
  f_equal. apply nth_error_ext. intros n.
  rewrite !nth_error_firstn.
  destruct (n <? Z.to_nat len)%nat eqn:En; [ | reflexivity ].
  apply Nat.ltb_lt in En.
  rewrite !nth_error_skipn. apply Hag. lia.
Qed.

(** The payload of a frame is the group buffer, one byte further. *)
Lemma frame_payload (b : list Z) (off len : Z) :
  0 <= off -> 0 <= len -> off + len <= Z.of_nat (length b) ->
  mem_read (0 :: b ++ [0]) (1 + off) len = mem_read b off len.
Proof.
  intros H0 H1 H2.
  rewrite !mem_read_defined;
    try lia; [ | cbn [length]; rewrite length_app; cbn [length]; lia ].
  f_equal.
  replace (Z.to_nat (1 + off)) with (S (Z.to_nat off)) by lia.
  cbn [skipn]. rewrite skipn_app, firstn_app, length_skipn.
  replace (Z.to_nat len - (length b - Z.to_nat off))%nat with 0%nat by lia.
  cbn [firstn]. now rewrite app_nil_r.
Qed.

Lemma frame_shape (b : list Z) :
  Z.of_nat (length (0 :: b ++ [0])) = Z.of_nat (length b) + 2
  /\ nth_error (0 :: b ++ [0]) 0 = Some 0
  /\ mem_read (0 :: b ++ [0]) 1 (Z.of_nat (length b)) = Some b
  /\ nth_error (0 :: b ++ [0]) (length b + 1) = Some 0.
Proof.
  split; [ cbn [length]; rewrite length_app; cbn [length]; lia | ].
  split; [ reflexivity | ].
  split.
  - change 1 with (1 + 0). rewrite frame_payload by lia. apply mem_read_all.
  - replace (length b + 1)%nat with (S (length b)) by lia. cbn [nth_error].
    rewrite nth_error_app2 by lia. now rewrite Nat.sub_diag.
Qed.

(** ** One uninterrupted call *)

Section CallFacts.

Variable calc : led_classdev_mc -> Z -> led_classdev_mc.

Lemma run_call_unfold (f : nat) (d : device) (t : thread) :
  run_call calc (S f) d t =
    if returned t then Some (ret t, d)
    else match step calc d t with
         | Progress d' t' => run_call calc f d' t'
         | Blocked | Fault => None
         end.
Proof. reflexivity. Qed.

Lemma call_ready_inv (d : device) (k : nat) (v : Z) (led : spi_ws2812b_led)
    (buf : list Z) :
  nth_error (leds d) k = Some led ->
  chip_cmd_buffer d = Some buf ->
  call_ready calc d k v = true ->
  mutex led = false
  /\ led_ctrl_cmd led = led_ctrl_cmd_len (cdef led) * chip_id led
  /\ 0 <= chip_id led < chip_num (cdef led)
  /\ sizeof_spix <= led_ctrl_cmd_len (cdef led)
  /\ Z.of_nat (length buf) = led_ctrl_cmd_len (cdef led) * chip_num (cdef led)
  /\ (3 <= length (subled_info (calc (mc_ldev led) v)))%nat.
Proof.
  intros Hled Hbuf. unfold call_ready. rewrite Hled, Hbuf.
  intros H.
  repeat match type of H with
         | (_ && _) = true => apply andb_prop in H; destruct H as [H ?]
         end.
  repeat match goal with
         | X : negb _ = true |- _ => apply negb_true_iff in X
         | X : (_ =? _) = true |- _ => apply Z.eqb_eq in X
         | X : (_ <=? _) = true |- _ => apply Z.leb_le in X
         | X : (_ <? _) = true |- _ => apply Z.ltb_lt in X
         | X : (_ <=? _)%nat = true |- _ => apply Nat.leb_le in X
         end.
  repeat split; assumption.
Qed.

Lemma channel_values_defined (mc : led_classdev_mc) :
  (3 <= length (subled_info mc))%nat ->
  exists rv gv bv,
    subled_brightness mc 0 = Some rv
    /\ subled_brightness mc 1 = Some gv
    /\ subled_brightness mc 2 = Some bv
    /\ channel_values mc = Some (rv, gv, bv).
Proof.
  intros H. unfold channel_values, subled_brightness.
  destruct (subled_info mc) as [ | s0 [ | s1 [ | s2 tl]]]; simpl in H; try lia.
  simpl. eauto 10.
Qed.

(** The first half of a call, up to the point where the group buffer
    is about to be copied into the frame. *)
Lemma call_reaches_copy (d : device) (k : nat) (v spi_ret : Z)
    (led : spi_ws2812b_led) (buf : list Z) :
  nth_error (leds d) k = Some led ->
  chip_cmd_buffer d = Some buf ->
  call_ready calc d k v = true ->
  let mc := calc (mc_ldev led) v in
  let len := to_u8 (chip_num (cdef led) * led_ctrl_cmd_len (cdef led)) in
  exists rv gv bv p leds' buf',
    channel_values mc = Some (rv, gv, bv)
    /\ ws2812b_set_pixel_value spix_on_entry rv gv bv = Some p
    /\ list_set (leds d) k (with_mc_ldev (with_mutex led true) mc) = Some leds'
    /\ mem_write buf (led_ctrl_cmd led) (pixel_bytes p) = Some buf'
    /\ ws2812b_rgb_led_brightness_set_blocking calc true spi_ret d k v
       = run_call calc 4
           {| chip_cmd_buffer := Some buf'; leds := leds';
              drvdata := drvdata d; registered := registered d;
              bus := bus d |}
           {| t_led := k; t_brightness := v; t_alloc_ok := true;
              t_spi_ret := spi_ret; t_pc := AtCopy; ctrl_cmd_len := len;
              ctrl_cmd_head := kzalloc (len + 2); spix := p; ret := 0 |}.
Proof.
  intros Hled Hbuf Hready mc len.
  destruct (call_ready_inv d k v led buf Hled Hbuf Hready)
    as (Hmx & Hptr & Hid & Hsz & Hlen & Hsub).
  unfold sizeof_spix in Hsz. fold mc in Hsub.
  destruct (channel_values_defined _ Hsub) as (rv & gv & bv & Er & Eg & Eb & Ecv).
  destruct (set_pixel_value_layout spix_on_entry rv gv bv)
    as (er & eg & eb & _ & _ & _ & Ep).
  set (p := {| r := er; g := eg; b := eb |}) in *.
  destruct (list_set_defined (leds d) k led (with_mutex led true) Hled)
    as [l1 Hl1].
  destruct (list_set_defined (leds d) k led
              (with_mc_ldev (with_mutex led true) mc) Hled) as [l2 Hl2].
  assert (Hw : exists buf',
             mem_write buf (led_ctrl_cmd led) (pixel_bytes p) = Some buf').
  { rewrite mem_write_defined; [ eauto | nia | ].
    change (Z.of_nat (length (pixel_bytes p))) with 9. nia. }
  destruct Hw as [buf' Hw].
  exists rv, gv, bv, p, l2, buf'. repeat split; auto.
  unfold ws2812b_rgb_led_brightness_set_blocking, enter.
  (* kzalloc *)
  rewrite run_call_unfold. thread_simpl.
  unfold step_alloc. thread_simpl. rewrite Hled. thread_simpl. fold len.
  (* mutex_lock *)
  rewrite run_call_unfold. thread_simpl.
  rewrite Hled, Hmx. unfold store_led. rewrite Hl1. thread_simpl.
  pose proof (list_set_same _ _ _ _ Hl1) as Hk1.
  (* scaling and composition *)
  rewrite run_call_unfold. thread_simpl.
  unfold step_scale, store_led. thread_simpl. device_simpl.
  rewrite Hk1. thread_simpl. led_simpl. fold mc.
  rewrite (list_set_again _ _ _ _ _ Hl1), Hl2. thread_simpl.
  rewrite Er, Eg, Eb. thread_simpl. rewrite Ep. thread_simpl. device_simpl.
  pose proof (list_set_same _ _ _ _ Hl2) as Hk2.
  (* save the colour *)
  rewrite run_call_unfold. thread_simpl.
  unfold step_save. thread_simpl. device_simpl.
  rewrite Hk2, Hbuf. thread_simpl. led_simpl. rewrite Hw. thread_simpl.
  reflexivity.
Qed.

(** A complete call on a group whose byte count fits the frame length:
    the value returned, and the device it leaves. *)
Lemma call_runs (d : device) (k : nat) (v spi_ret : Z)
    (led : spi_ws2812b_led) (buf : list Z) :
  nth_error (leds d) k = Some led ->
  chip_cmd_buffer d = Some buf ->
  call_ready calc d k v = true ->
  frame_fits (cdef led) = true ->
  exists rv gv bv p leds' buf',
    channel_values (calc (mc_ldev led) v) = Some (rv, gv, bv)
    /\ ws2812b_set_pixel_value spix_on_entry rv gv bv = Some p
    /\ list_set (leds d) k (with_mc_ldev led (calc (mc_ldev led) v)) = Some leds'
    /\ mem_write buf (led_ctrl_cmd led) (pixel_bytes p) = Some buf'
    /\ ws2812b_rgb_led_brightness_set_blocking calc true spi_ret d k v
       = Some (spi_ret,
               {| chip_cmd_buffer := Some buf';
                  leds := leds';
                  drvdata := drvdata d;
                  registered := registered d;
                  bus := bus d ++ [WriteCall k (0 :: buf' ++ [0]);
                                   WriteReturn k spi_ret] |}).
Proof.
  intros Hled Hbuf Hready Hfits.
  destruct (call_reaches_copy d k v spi_ret led buf Hled Hbuf Hready)
    as (rv & gv & bv & p & l2 & buf' & Ecv & Ep & Hl2 & Hw & Hrun).
  destruct (call_ready_inv d k v led buf Hled Hbuf Hready)
    as (Hmx & Hptr & Hid & Hsz & Hlen & Hsub).
  apply Z.ltb_lt in Hfits. unfold sizeof_spix in Hsz.
  set (mc := calc (mc_ldev led) v) in *.
  destruct (list_set_defined (leds d) k led (with_mc_ldev led mc) Hled)
    as [l3 Hl3].
  exists rv, gv, bv, p, l3, buf'. repeat split; auto.
  rewrite Hrun. clear Hrun.
  assert (Hlen' : Z.of_nat (length buf')
                  = led_ctrl_cmd_len (cdef led) * chip_num (cdef led))
    by (rewrite (mem_write_length _ _ _ _ Hw); exact Hlen).
  replace (to_u8 (chip_num (cdef led) * led_ctrl_cmd_len (cdef led)))
    with (Z.of_nat (length buf'))
    by (unfold to_u8; rewrite Z.mod_small; nia).
  pose proof (list_set_same _ _ _ _ Hl2) as Hk2.
  (* copy the group buffer into the frame *)
  rewrite run_call_unfold. thread_simpl.
  unfold step_copy. thread_simpl. device_simpl.
  rewrite Hk2. thread_simpl. led_simpl.
  replace (led_ctrl_cmd led - led_ctrl_cmd_len (cdef led) * chip_id led)
    with 0 by lia.
  rewrite <- Hlen', mem_read_all. thread_simpl. rewrite frame_assembly.
  thread_simpl.
  (* spi_write *)
  rewrite run_call_unfold. thread_simpl.
  unfold step_write. thread_simpl. device_simpl.
  replace (Z.of_nat (length buf') + 2)
    with (Z.of_nat (length (0 :: buf' ++ [0])))
    by (cbn [length]; rewrite length_app; cbn [length]; lia).
  rewrite mem_read_all. thread_simpl.
  rewrite run_call_unfold. thread_simpl.
  unfold step_written. thread_simpl. device_simpl.
  (* mutex_unlock *)
  rewrite run_call_unfold. thread_simpl.
  unfold step_unlock, store_led. thread_simpl. device_simpl.
  rewrite Hk2. thread_simpl.
  replace (with_mutex (with_mc_ldev (with_mutex led true) mc) false)
    with (with_mc_ldev led mc)
    by (unfold with_mc_ldev, with_mutex; led_simpl; now rewrite Hmx).
  rewrite (list_set_again _ _ _ _ _ Hl2), Hl3. thread_simpl.
  (* return *)
  cbn [run_call]. thread_simpl.
  unfold with_leds, with_bus, with_buffer. device_simpl.
  now rewrite <- app_assoc.
Qed.

(** X6 (frame overrun): on a group of 256 bytes or more the frame is
    allocated from the length truncated to eight bits, and the copy of
    the whole group buffer runs past its end: the call has no defined
    result. *)
Lemma call_overruns_frame (d : device) (k : nat) (v spi_ret : Z)
    (led : spi_ws2812b_led) (buf : list Z) :
  nth_error (leds d) k = Some led ->
  chip_cmd_buffer d = Some buf ->
  call_ready calc d k v = true ->
  frame_fits (cdef led) = false ->
  ws2812b_rgb_led_brightness_set_blocking calc true spi_ret d k v = None.
Proof.
  intros Hled Hbuf Hready Hfits.
  destruct (call_reaches_copy d k v spi_ret led buf Hled Hbuf Hready)
    as (rv & gv & bv & p & l2 & buf' & Ecv & Ep & Hl2 & Hw & Hrun).
  destruct (call_ready_inv d k v led buf Hled Hbuf Hready)
    as (Hmx & Hptr & Hid & Hsz & Hlen & Hsub).
  apply Z.ltb_ge in Hfits. unfold sizeof_spix in Hsz.
  rewrite Hrun. clear Hrun.
  assert (Hlen' : Z.of_nat (length buf')
                  = led_ctrl_cmd_len (cdef led) * chip_num (cdef led))
    by (rewrite (mem_write_length _ _ _ _ Hw); exact Hlen).
  pose proof (list_set_same _ _ _ _ Hl2) as Hk2.
  rewrite run_call_unfold. thread_simpl.
  unfold step_copy. thread_simpl. device_simpl.
  rewrite Hk2. thread_simpl. led_simpl.
  replace (led_ctrl_cmd led - led_ctrl_cmd_len (cdef led) * chip_id led)
    with 0 by lia.
  rewrite <- Hlen', mem_read_all. thread_simpl.
  rewrite mem_write_overrun; [ reflexivity | ].
  rewrite kzalloc_length.
  pose proof (Z.mod_pos_bound
                (chip_num (cdef led) * led_ctrl_cmd_len (cdef led)) 256
                ltac:(lia)) as Hm.
  pose proof (Z.mul_comm (chip_num (cdef led)) (led_ctrl_cmd_len (cdef led)))
    as Hc.
  unfold to_u8. rewrite Hlen', <- Hc.
  generalize dependent (chip_num (cdef led) * led_ctrl_cmd_len (cdef led)).
  intros P. intros. pose proof (Z.div_mod P 256 ltac:(lia)).
  assert (1 <= P / 256) by (apply Z.div_le_lower_bound; lia). lia.
Qed.

End CallFacts.

(** ** The brightness setter: frame, slot and failures *)

Section SetterFacts.

Variable calc : led_classdev_mc -> Z -> led_classdev_mc.

(** X5 (frame layout): a call on a group that fits the frame length
    byte returns what [spi_write] returned, and its frame has
    [chip_num * led_ctrl_cmd_len + 2] bytes: a zero, the whole group
    buffer as the call leaves it, a zero. *)
Lemma frame_layout_when_length_fits (d : device) (k : nat) (v spi_ret : Z)
    (led : spi_ws2812b_led) (buf : list Z) :
  nth_error (leds d) k = Some led ->
  chip_cmd_buffer d = Some buf ->
  call_ready calc d k v = true ->
  frame_fits (cdef led) = true ->
  exists d' buf' frame,
    ws2812b_rgb_led_brightness_set_blocking calc true spi_ret d k v
    = Some (spi_ret, d')
    /\ chip_cmd_buffer d' = Some buf'
    /\ bus d' = bus d ++ [WriteCall k frame; WriteReturn k spi_ret]
    /\ Z.of_nat (length frame)
       = chip_num (cdef led) * led_ctrl_cmd_len (cdef led) + 2
    /\ nth_error frame 0 = Some 0
    /\ mem_read frame 1 (chip_num (cdef led) * led_ctrl_cmd_len (cdef led))
       = Some buf'
    /\ nth_error frame
         (Z.to_nat (chip_num (cdef led) * led_ctrl_cmd_len (cdef led) + 1))
       = Some 0.
Proof.
  intros Hled Hbuf Hready Hfits.
  destruct (call_runs calc d k v spi_ret led buf Hled Hbuf Hready Hfits)
    as (rv & gv & bv & p & leds' & buf' & _ & _ & _ & Hw & Hcall).
  destruct (call_ready_inv calc d k v led buf Hled Hbuf Hready)
    as (_ & _ & _ & _ & Hlen & _).
  assert (Hlen' : chip_num (cdef led) * led_ctrl_cmd_len (cdef led)
                  = Z.of_nat (length buf'))
    by (rewrite (mem_write_length _ _ _ _ Hw), Hlen; apply Z.mul_comm).
  destruct (frame_shape buf') as (F1 & F2 & F3 & F4).
  eexists _, buf', (0 :: buf' ++ [0]).
  split; [ exact Hcall | ]. device_simpl.
  rewrite Hlen'. repeat split; auto.
  replace (Z.to_nat (Z.of_nat (length buf') + 1)) with (length buf' + 1)%nat
    by lia.
  exact F4.
Qed.

(** C4 (allocation failure): when [kzalloc] of the frame fails the call
    returns [-ENOMEM] and the device is what it was: group buffer, LED
    objects and bus log are untouched, so nothing was written to the
    bus. *)
Theorem allocation_failure_mutates_nothing (d : device) (k : nat)
    (v spi_ret : Z) (led : spi_ws2812b_led) :
  nth_error (leds d) k = Some led ->
  exists d',
    ws2812b_rgb_led_brightness_set_blocking calc false spi_ret d k v
    = Some (- ENOMEM, d')
    /\ d' = d
    /\ chip_cmd_buffer d' = chip_cmd_buffer d
    /\ leds d' = leds d
    /\ bus d' = bus d.
Proof.
  intros Hled. exists d. repeat split.
  unfold ws2812b_rgb_led_brightness_set_blocking, enter.
  rewrite run_call_unfold. thread_simpl.
  unfold step_alloc. thread_simpl. rewrite Hled. thread_simpl.
  cbn [run_call]. thread_simpl. reflexivity.
Qed.

(** C9 (slot locality): a call on an LED rewrites only the nine bytes
    of that LED's pixel in the group buffer; every byte outside them,
    hence every other chip's slot, is unchanged, and the frame handed
    to the bus carries those other slots as they were. *)
Theorem call_writes_own_slot_only (d : device) (k : nat) (v spi_ret : Z)
    (led : spi_ws2812b_led) (buf : list Z) :
  nth_error (leds d) k = Some led ->
  chip_cmd_buffer d = Some buf ->
  call_ready calc d k v = true ->
  frame_fits (cdef led) = true ->
  exists d' buf' frame,
    ws2812b_rgb_led_brightness_set_blocking calc true spi_ret d k v
    = Some (spi_ret, d')
    /\ chip_cmd_buffer d' = Some buf'
    /\ length buf' = length buf
    /\ (forall j : nat,
           Z.of_nat j < led_ctrl_cmd led
           \/ led_ctrl_cmd led + sizeof_spix <= Z.of_nat j ->
           nth_error buf' j = nth_error buf j)
    /\ bus d' = bus d ++ [WriteCall k frame; WriteReturn k spi_ret]
    /\ forall s : Z,
         0 <= s < chip_num (cdef led) -> s <> chip_id led ->
         let len := led_ctrl_cmd_len (cdef led) in
         mem_read buf' (len * s) len = mem_read buf (len * s) len
         /\ mem_read frame (1 + len * s) len = mem_read buf (len * s) len.
Proof.
  intros Hled Hbuf Hready Hfits.
  destruct (call_runs calc d k v spi_ret led buf Hled Hbuf Hready Hfits)
    as (rv & gv & bv & p & leds' & buf' & _ & _ & _ & Hw & Hcall).
  destruct (call_ready_inv calc d k v led buf Hled Hbuf Hready)
    as (_ & Hptr & Hid & Hsz & Hlen & _).
  unfold sizeof_spix in *.
  pose proof (mem_write_length _ _ _ _ Hw) as Hlen'.
  assert (Hout : forall j : nat,
             Z.of_nat j < led_ctrl_cmd led
             \/ led_ctrl_cmd led + 9 <= Z.of_nat j ->
             nth_error buf' j = nth_error buf j).
  { intros j Hj. apply (mem_write_elsewhere _ _ _ _ _ Hw).
    change (Z.of_nat (length (pixel_bytes p))) with 9. exact Hj. }
  eexists _, buf', (0 :: buf' ++ [0]).
  split; [ exact Hcall | ]. device_simpl.
  repeat split; auto.
  - apply mem_read_agree; [ exact Hlen' | ].
    intros j Hj. apply Hout. nia.
  - rewrite frame_payload by nia.
    apply mem_read_agree; [ exact Hlen' | ].
    intros j Hj. apply Hout. nia.
Qed.

Lemma call_ready_after_call (d : device) (k k2 : nat) (v2 : Z)
    (led' : spi_ws2812b_led) (leds' : list spi_ws2812b_led)
    (buf buf' : list Z) (dd : option nat) (rg : list nat)
    (evs : list bus_event) :
  chip_cmd_buffer d = Some buf ->
  length buf' = length buf ->
  list_set (leds d) k led' = Some leds' ->
  k2 <> k ->
  call_ready calc
    {| chip_cmd_buffer := Some buf'; leds := leds'; drvdata := dd;
       registered := rg; bus := evs |} k2 v2
  = call_ready calc d k2 v2.
Proof.
  intros Hbuf Hlen Hset Hne. unfold call_ready. device_simpl.
  rewrite (list_set_other _ _ _ _ _ Hset Hne), Hbuf, Hlen. reflexivity.
Qed.

(** C5 (bus failure): whatever [spi_write] returns is what the call
    returns, an error code included; the caller's slot holds the pixel
    just composed all the same, and the frame of a following call on
    another LED of the group carries that pixel in the slot. *)
Theorem write_failure_keeps_new_pixel (d : device) (k : nat) (v err : Z)
    (led : spi_ws2812b_led) (buf : list Z) :
  nth_error (leds d) k = Some led ->
  chip_cmd_buffer d = Some buf ->
  call_ready calc d k v = true ->
  frame_fits (cdef led) = true ->
  exists rv gv bv p d1 buf1,
    channel_values (calc (mc_ldev led) v) = Some (rv, gv, bv)
    /\ ws2812b_set_pixel_value spix_on_entry rv gv bv = Some p
    /\ ws2812b_rgb_led_brightness_set_blocking calc true err d k v
       = Some (err, d1)
    /\ chip_cmd_buffer d1 = Some buf1
    /\ mem_read buf1 (led_ctrl_cmd led) sizeof_spix = Some (pixel_bytes p)
    /\ forall (k2 : nat) (v2 : Z) (led2 : spi_ws2812b_led),
         nth_error (leds d) k2 = Some led2 ->
         k2 <> k ->
         cdef led2 = cdef led ->
         chip_id led2 <> chip_id led ->
         call_ready calc d k2 v2 = true ->
         exists d2 frame,
           ws2812b_rgb_led_brightness_set_blocking calc true 0 d1 k2 v2
           = Some (0, d2)
           /\ bus d2 = bus d1 ++ [WriteCall k2 frame; WriteReturn k2 0]
           /\ mem_read frame (1 + led_ctrl_cmd led) sizeof_spix
              = Some (pixel_bytes p).
Proof.
  intros Hled Hbuf Hready Hfits.
  destruct (call_runs calc d k v err led buf Hled Hbuf Hready Hfits)
    as (rv & gv & bv & p & leds1 & buf1 & Ecv & Ep & Hl1 & Hw & Hcall).
  destruct (call_ready_inv calc d k v led buf Hled Hbuf Hready)
    as (_ & Hptr & Hid & Hsz & Hlen & _).
  pose proof (mem_write_length _ _ _ _ Hw) as Hlen1.
  pose proof (mem_write_read_back _ _ _ _ Hw) as Hback.
  change (Z.of_nat (length (pixel_bytes p))) with sizeof_spix in Hback.
  eexists rv, gv, bv, p, _, buf1.
  split; [ exact Ecv | ]. split; [ exact Ep | ].
  split; [ exact Hcall | ]. device_simpl.
  split; [ reflexivity | ]. split; [ exact Hback | ].
  intros k2 v2 led2 Hled2 Hne Hcd Hcid Hready2.
  set (d1 := {| chip_cmd_buffer := Some buf1; leds := leds1;
                drvdata := drvdata d; registered := registered d;
                bus := bus d ++ [WriteCall k (0 :: buf1 ++ [0]);
                                 WriteReturn k err] |}).
  assert (Hled2' : nth_error (leds d1) k2 = Some led2)
    by (unfold d1; device_simpl;
        now rewrite (list_set_other _ _ _ _ _ Hl1 Hne)).
  assert (Hready2' : call_ready calc d1 k2 v2 = true)
    by (unfold d1;
        now rewrite (call_ready_after_call d k k2 v2 _ _ buf buf1
                       _ _ _ Hbuf Hlen1 Hl1 Hne)).
  assert (Hfits2 : frame_fits (cdef led2) = true) by now rewrite Hcd.
  destruct (call_runs calc d1 k2 v2 0 led2 buf1 Hled2' eq_refl Hready2' Hfits2)
    as (rv2 & gv2 & bv2 & p2 & leds2 & buf2 & _ & _ & _ & Hw2 & Hcall2).
  destruct (call_ready_inv calc d1 k2 v2 led2 buf1 Hled2' eq_refl Hready2')
    as (_ & Hptr2 & Hid2 & _ & _ & _).
  rewrite Hcd in Hptr2, Hid2.
  eexists _, (0 :: buf2 ++ [0]).
  split; [ exact Hcall2 | ]. device_simpl.
  split; [ reflexivity | ].
  pose proof (mem_write_length _ _ _ _ Hw2) as Hlen2.
  unfold sizeof_spix in *.
  rewrite frame_payload by nia.
  rewrite <- Hback.
  apply mem_read_agree; [ exact Hlen2 | ].
  intros j Hj. apply (mem_write_elsewhere _ _ _ _ _ Hw2).
  change (Z.of_nat (length (pixel_bytes p2))) with 9. nia.
Qed.

(** *** What no call changes *)

Lemma list_set_map {A B : Type} (f : A -> B) (xs xs' : list A) (n : nat)
    (x y : A) :
  list_set xs n x = Some xs' -> nth_error xs n = Some y -> f x = f y ->
  map f xs' = map f xs.
Proof.
  revert n xs'. induction xs as [ | a tl IH]; intros [ | n] xs' H Hn Hf;
    simpl in *; try discriminate.
  - inversion H. inversion Hn. subst. simpl. now rewrite Hf.
  - destruct (list_set tl n x) as [tl' | ] eqn:E; [ | discriminate ].
    simpl in H. inversion H. subst. simpl. f_equal. now apply (IH n).
Qed.

Lemma store_led_layout (d d' : device) (k : nat) (led led' : spi_ws2812b_led) :
  nth_error (leds d) k = Some led ->
  led_layout led' = led_layout led ->
  store_led d k led' = Some d' ->
  map led_layout (leds d') = map led_layout (leds d)
  /\ buffer_size d' = buffer_size d.
Proof.
  intros Hled Hlay. unfold store_led.
  destruct (list_set (leds d) k led') as [ls | ] eqn:E; [ | discriminate ].
  cbn [bind]. intros H. inversion H. subst. device_simpl.
  split; [ | reflexivity ].
  now apply (list_set_map led_layout _ _ _ _ _ E Hled).
Qed.

(** One step leaves the layout of the LEDs and the size of the group
    buffer as they are. *)
Lemma step_keeps_layout (d d' : device) (t t' : thread) :
  step calc d t = Progress d' t' ->
  map led_layout (leds d') = map led_layout (leds d)
  /\ buffer_size d' = buffer_size d.
Proof.
  unfold step.
  destruct (t_pc t).
  - unfold step_alloc.
    destruct (nth_error (leds d) (t_led t)) as [led | ]; [ | discriminate ].
    cbn [bind]. destruct (t_alloc_ok t); cbn [progress];
      intros H; inversion H; subst; auto.
  - destruct (nth_error (leds d) (t_led t)) as [led | ] eqn:Hled;
      [ | discriminate ].
    destruct (mutex led); [ discriminate | ].
    destruct (store_led d (t_led t) (with_mutex led true)) as [d1 | ] eqn:E;
      [ | discriminate ].
    cbn [bind progress]. intros H. inversion H. subst.
    now apply (store_led_layout d d' (t_led t) led (with_mutex led true)).
  - unfold step_scale.
    destruct (nth_error (leds d) (t_led t)) as [led | ] eqn:Hled;
      [ | discriminate ].
    cbn [bind].
    destruct (store_led d (t_led t) _) as [d1 | ] eqn:E; [ | discriminate ].
    cbn [bind].
    destruct (subled_brightness _ 0); [ | discriminate ]. cbn [bind].
    destruct (subled_brightness _ 1); [ | discriminate ]. cbn [bind].
    destruct (subled_brightness _ 2); [ | discriminate ]. cbn [bind].
    destruct (ws2812b_set_pixel_value _ _ _ _); [ | discriminate ].
    cbn [bind progress]. intros H. inversion H. subst.
    exact (store_led_layout d d' (t_led t) led
             (with_mc_ldev led (calc (mc_ldev led) (t_brightness t)))
             Hled eq_refl E).
  - unfold step_save, buffer_size.
    destruct (nth_error (leds d) (t_led t)) as [led | ]; [ | discriminate ].
    cbn [bind].
    destruct (chip_cmd_buffer d) as [buf | ]; [ | discriminate ].
    cbn [bind].
    destruct (mem_write buf _ _) as [buf' | ] eqn:E; [ | discriminate ].
    cbn [bind progress]. intros H. inversion H. subst. device_simpl.
    split; [ reflexivity | ].
    cbn [option_map]. now rewrite (mem_write_length _ _ _ _ E).
  - unfold step_copy.
    destruct (nth_error (leds d) (t_led t)) as [led | ]; [ | discriminate ].
    cbn [bind].
    destruct (chip_cmd_buffer d) as [buf | ]; [ | discriminate ].
    cbn [bind].
    destruct (mem_read buf _ _); [ | discriminate ]. cbn [bind].
    destruct (mem_write _ _ _); [ | discriminate ].
    cbn [bind progress]. intros H. inversion H. subst. auto.
  - unfold step_write.
    destruct (mem_read _ _ _); [ | discriminate ].
    cbn [bind progress]. intros H. inversion H. subst. auto.
  - unfold step_written. cbn [progress]. intros H. inversion H. subst. auto.
  - unfold step_unlock.
    destruct (nth_error (leds d) (t_led t)) as [led | ] eqn:Hled;
      [ | discriminate ].
    cbn [bind].
    destruct (store_led d (t_led t) (with_mutex led false)) as [d1 | ] eqn:E;
      [ | discriminate ].
    cbn [bind progress]. intros H. inversion H. subst.
    now apply (store_led_layout d d' (t_led t) led (with_mutex led false)).
  - discriminate.
Qed.

Lemma run_call_keeps_layout (fuel : nat) (d d' : device) (t : thread) (rv : Z) :
  run_call calc fuel d t = Some (rv, d') ->
  map led_layout (leds d') = map led_layout (leds d)
  /\ buffer_size d' = buffer_size d.
Proof.
  revert d t. induction fuel as [ | fuel IH]; intros d t; cbn [run_call].
  - destruct (returned t); [ | discriminate ].
    intros H. inversion H. auto.
  - destruct (returned t).
    + intros H. inversion H. auto.
    + destruct (step calc d t) as [d1 t1 | | ] eqn:E; try discriminate.
      intros H. destruct (IH _ _ H) as [H1 H2].
      destruct (step_keeps_layout _ _ _ _ E) as [H3 H4].
      split; congruence.
Qed.

(** A call, whatever it returns, leaves every LED in its slot and the
    group buffer at its size. *)
Lemma call_keeps_layout (alloc_ok : bool) (spi_ret : Z) (d d' : device)
    (k : nat) (v rv : Z) :
  ws2812b_rgb_led_brightness_set_blocking calc alloc_ok spi_ret d k v
  = Some (rv, d') ->
  map led_layout (leds d') = map led_layout (leds d)
  /\ buffer_size d' = buffer_size d.
Proof. apply run_call_keeps_layout. Qed.

(** C2 (channel order on the wire), as the code has it: the pixel lays
    its three triplets out in the member order of [struct
    ws2812b_pixel], red, green, blue, whatever the order of the three
    assignments; these nine bytes are what a call stores in the LED's
    slot and what the frame carries there. *)
Theorem pixel_wire_order_is_rgb :
  (forall (spix0 : ws2812b_pixel) (rv gv bv : Z),
      exists p er eg eb,
        ws2812b_set_pixel_value spix0 rv gv bv = Some p
        /\ encode rv = Some er /\ encode gv = Some eg /\ encode bv = Some eb
        /\ pixel_bytes p = er ++ eg ++ eb)
  /\ (forall (d : device) (k : nat) (v spi_ret : Z)
             (led : spi_ws2812b_led) (buf : list Z),
         nth_error (leds d) k = Some led ->
         chip_cmd_buffer d = Some buf ->
         call_ready calc d k v = true ->
         frame_fits (cdef led) = true ->
         exists rv gv bv er eg eb d' buf' frame,
           channel_values (calc (mc_ldev led) v) = Some (rv, gv, bv)
           /\ encode rv = Some er /\ encode gv = Some eg
           /\ encode bv = Some eb
           /\ ws2812b_rgb_led_brightness_set_blocking calc true spi_ret d k v
              = Some (spi_ret, d')
           /\ chip_cmd_buffer d' = Some buf'
           /\ mem_read buf' (led_ctrl_cmd led) sizeof_spix
              = Some (er ++ eg ++ eb)
           /\ bus d' = bus d ++ [WriteCall k frame; WriteReturn k spi_ret]
           /\ mem_read frame (1 + led_ctrl_cmd led) sizeof_spix
              = Some (er ++ eg ++ eb)).
Proof.
  split.
  - intros. apply composed_pixel_bytes.
  - intros d k v spi_ret led buf Hled Hbuf Hready Hfits.
    destruct (call_runs calc d k v spi_ret led buf Hled Hbuf Hready Hfits)
      as (rv & gv & bv & p & leds' & buf' & Ecv & Ep & _ & Hw & Hcall).
    destruct (call_ready_inv calc d k v led buf Hled Hbuf Hready)
      as (_ & Hptr & Hid & Hsz & Hlen & _).
    destruct (composed_pixel_bytes spix_on_entry rv gv bv)
      as (p' & er & eg & eb & Ep' & Er & Eg & Eb & Hbytes).
    assert (p' = p) by congruence. subst p'.
    pose proof (mem_write_length _ _ _ _ Hw) as Hlen'.
    pose proof (mem_write_read_back _ _ _ _ Hw) as Hback.
    change (Z.of_nat (length (pixel_bytes p))) with sizeof_spix in Hback.
    rewrite Hbytes in Hback.
    eexists rv, gv, bv, er, eg, eb, _, buf', (0 :: buf' ++ [0]).
    repeat (split; [ eassumption | ]). device_simpl.
    split; [ reflexivity | ]. split; [ exact Hback | ].
    split; [ reflexivity | ].
    unfold sizeof_spix in *. rewrite frame_payload by nia. exact Hback.
Qed.

(** ** Probe *)

(** C7 (topology check): when no child node is available, or their
    number differs from the chip count of the chip definition, the
    probe returns [-ENODEV] and the device is what it was: no buffer
    has been allocated and no LED created or registered. *)
Theorem probe_rejects_topology_mismatch (env : probe_env)
    (cd : spi_ws2812b_chipdef) (children : list device_node) (d : device) :
  Z.of_nat (length children) = 0
  \/ Z.of_nat (length children) <> chip_num cd ->
  exists d',
    spi_ws2812b_probe calc env (Some cd) children d = Some (- ENODEV, d')
    /\ d' = d
    /\ (d = unbound_device ->
        chip_cmd_buffer d' = None /\ leds d' = [] /\ registered d' = []
        /\ bus d' = []).
Proof.
  intros H. exists d. split; [ | split; [ reflexivity | ] ].
  - unfold spi_ws2812b_probe. cbv zeta.
    destruct H as [H | H].
    + rewrite H. reflexivity.
    + apply Z.eqb_neq in H. rewrite H. cbn [negb].
      now rewrite orb_true_r.
  - intros ->. repeat split.
Qed.

Lemma probed_layout_succ (cd : spi_ws2812b_chipdef) (n : nat) :
  probed_layout cd (S n)
  = probed_layout cd n
    ++ [(cd, Z.of_nat n, led_ctrl_cmd_len cd * Z.of_nat n)].
Proof.
  unfold probed_layout. rewrite seq_S, map_app. reflexivity.
Qed.

(** The loop of the probe gives the [k]-th LED it creates chip number
    [k] and the [k]-th slot of the group buffer. *)
Lemma probe_children_layout (children : list device_node) :
  forall (env : probe_env) (cd : spi_ws2812b_chipdef) (d : device)
         (cur_chip_id : Z) (i : nat) (rv : Z) (d' : device),
    cur_chip_id = to_u8 (Z.of_nat (length (leds d))) ->
    (length (leds d) + length children <= 256)%nat ->
    map led_layout (leds d) = probed_layout cd (length (leds d)) ->
    probe_children calc env cd d cur_chip_id i children = Some (rv, d') ->
    exists n,
      (n <= length children)%nat
      /\ map led_layout (leds d') = probed_layout cd (length (leds d) + n)
      /\ buffer_size d' = buffer_size d
      /\ (rv = 0 -> n = length children).
Proof.
  induction children as [ | chip_node rest IH];
    intros env cd d cur i rv d' Hcur Hbound Hlay; cbn [probe_children].
  - intros H. inversion H. subst. exists 0%nat.
    rewrite Nat.add_0_r. auto.
  - assert (Hstop : forall x : device,
               x = d -> Some (- ENOMEM, x) = Some (rv, d') ->
               exists n,
                 (n <= length (chip_node :: rest))%nat
                 /\ map led_layout (leds d')
                    = probed_layout cd (length (leds d) + n)
                 /\ buffer_size d' = buffer_size d
                 /\ (rv = 0 -> n = length (chip_node :: rest))).
    { intros x -> H. inversion H. subst. exists 0%nat.
      rewrite Nat.add_0_r. unfold ENOMEM.
      repeat split; auto; cbn [length]; lia. }
    destruct (led_alloc_ok env i); cbn [negb]; [ | now apply Hstop ].
    destruct (subled_alloc_ok env i); cbn [negb]; [ | now apply Hstop ].
    clear Hstop.
    destruct (init_subled_info (led_num_channels cd)) as [subs | ];
      [ | discriminate ].
    cbn [bind]. cbv zeta.
    match goal with
    | |- context [ws2812b_rgb_led_brightness_set_blocking calc ?a ?s ?d0 ?k ?v] =>
        destruct (ws2812b_rgb_led_brightness_set_blocking calc a s d0 k v)
          as [[r1 d1] | ] eqn:Ecall; [ | discriminate ]
    end.
    cbn [bind snd].
    destruct (call_keeps_layout _ _ _ _ _ _ _ Ecall) as [Hl1 Hb1].
    cbn [with_leds leds] in Hl1.
    unfold buffer_size in Hb1. cbn [with_leds chip_cmd_buffer] in Hb1.
    fold (buffer_size d1) in Hb1. fold (buffer_size d) in Hb1.
    assert (Hcur' : cur = Z.of_nat (length (leds d))).
    { rewrite Hcur. unfold to_u8. apply Z.mod_small. cbn [length] in Hbound.
      lia. }
    assert (Hlay1 : map led_layout (leds d1)
                    = probed_layout cd (S (length (leds d)))).
    { rewrite Hl1, map_app, Hlay, probed_layout_succ.
      cbn [map led_layout cdef chip_id led_ctrl_cmd]. now rewrite Hcur'. }
    assert (Hlen1 : length (leds d1) = S (length (leds d))).
    { rewrite <- (length_map led_layout), Hlay1.
      unfold probed_layout. now rewrite length_map, length_seq. }
    destruct (register_ret env i <? 0).
    + intros H. inversion H. subst. exists 1%nat.
      cbn [with_drvdata leds length].
      replace (length (leds d) + 1)%nat with (S (length (leds d))) by lia.
      unfold ENOMEM. repeat split; auto; lia.
    + intros H.
      apply IH in H.
      * destruct H as (n & Hn & Hl & Hb & Hr).
        cbn [with_registered with_drvdata leds] in Hl.
        unfold buffer_size in Hb.
        cbn [with_registered with_drvdata chip_cmd_buffer] in Hb.
        fold (buffer_size d') in Hb. fold (buffer_size d1) in Hb.
        exists (S n). cbn [length].
        rewrite Hlen1 in Hl.
        replace (length (leds d) + S n)%nat with (S (length (leds d)) + n)%nat
          by lia.
        split; [ lia | ]. split; [ exact Hl | ].
        split; [ congruence | ].
        intros Hz. specialize (Hr Hz). lia.
      * cbn [with_registered with_drvdata leds].
        rewrite Hlen1, Hcur'. unfold to_u8. f_equal. lia.
      * cbn [with_registered with_drvdata leds].
        rewrite Hlen1. cbn [length] in Hbound. lia.
      * cbn [with_registered with_drvdata leds]. now rewrite Hlen1.
Qed.

(** A probe that succeeds leaves one LED per child node, the [k]-th
    with chip number [k] and its pointer at the [k]-th slot of a buffer
    of [led_ctrl_cmd_len * chip_num] bytes. *)
Lemma probe_lays_out_slots (env : probe_env) (cd : spi_ws2812b_chipdef)
    (children : list device_node) (d' : device) :
  chip_num cd <= 256 ->
  spi_ws2812b_probe calc env (Some cd) children unbound_device = Some (0, d') ->
  Z.of_nat (length children) = chip_num cd
  /\ map led_layout (leds d') = probed_layout cd (length children)
  /\ buffer_size d'
     = Some (Z.to_nat (led_ctrl_cmd_len cd * chip_num cd)).
Proof.
  intros Hu8. unfold spi_ws2812b_probe. cbv zeta.
  destruct (Z.of_nat (length children) =? 0) eqn:E0;
    [ intros H; inversion H | ].
  destruct (Z.of_nat (length children) =? chip_num cd) eqn:E1;
    [ | intros H; inversion H ].
  cbn [negb orb]. apply Z.eqb_eq in E1.
  destruct (buffer_alloc_ok env); cbn [negb]; [ | intros H; inversion H ].
  intros H. apply probe_children_layout in H.
  - destruct H as (n & Hn & Hl & Hb & Hr).
    specialize (Hr eq_refl). subst n.
    cbn [with_buffer unbound_device leds length] in Hl.
    split; [ exact E1 | ]. split; [ exact Hl | ].
    rewrite Hb. unfold buffer_size. cbn [with_buffer chip_cmd_buffer option_map].
    now rewrite kzalloc_length.
  - reflexivity.
  - cbn [with_buffer unbound_device leds length]. lia.
  - reflexivity.
Qed.

(** ** Concurrent callers *)

(** A caller that finds the mutex of its LED held does not move. *)
Lemma held_mutex_blocks (d : device) (t : thread) (led : spi_ws2812b_led) :
  t_pc t = AtLock ->
  nth_error (leds d) (t_led t) = Some led ->
  mutex led = true ->
  step calc d t = Blocked.
Proof.
  intros Hpc Hled Hmx. unfold step. now rewrite Hpc, Hled, Hmx.
Qed.

(** The mutex a caller takes is the one inside its own LED object:
    locking leaves every other LED object as it was. *)
Lemma lock_is_per_led (d d' : device) (t t' : thread) (k' : nat) :
  t_pc t = AtLock ->
  step calc d t = Progress d' t' ->
  k' <> t_led t ->
  nth_error (leds d') k' = nth_error (leds d) k'.
Proof.
  intros Hpc Hstep Hne. unfold step in Hstep. rewrite Hpc in Hstep.
  destruct (nth_error (leds d) (t_led t)) as [led | ]; [ | discriminate ].
  destruct (mutex led); [ discriminate | ].
  unfold store_led in Hstep.
  destruct (list_set (leds d) (t_led t) (with_mutex led true)) as [ls | ] eqn:E;
    [ | discriminate ].
  cbn [bind progress] in Hstep. inversion Hstep. subst. device_simpl.
  apply (list_set_other _ _ _ _ _ E Hne).
Qed.

End SetterFacts.

(** ** The properties on the router and on a long chain *)

Lemma allocation_failure_mutates_nothing_witness :
  exists d',
    ws2812b_rgb_led_brightness_set_blocking linear_scaling false 0 router 0 255
    = Some (- ENOMEM, d')
    /\ d' = router
    /\ chip_cmd_buffer d' = chip_cmd_buffer router
    /\ leds d' = leds router
    /\ bus d' = bus router.
Proof.
  apply (allocation_failure_mutates_nothing linear_scaling router 0 255 0
           (mixed_led miwifi_ws2812b_spi_led 0 255 0 0)).
  reflexivity.
Defined.

Lemma call_writes_own_slot_only_witness :
  exists d' buf' frame,
    ws2812b_rgb_led_brightness_set_blocking linear_scaling true 0 router 0 255
    = Some (0, d')
    /\ chip_cmd_buffer d' = Some buf'
    /\ length buf' = length (kzalloc 18)
    /\ (forall j : nat,
           Z.of_nat j < 0 \/ 0 + sizeof_spix <= Z.of_nat j ->
           nth_error buf' j = nth_error (kzalloc 18) j)
    /\ bus d' = bus router ++ [WriteCall 0 frame; WriteReturn 0 0]
    /\ forall s : Z,
         0 <= s < 2 -> s <> 0 ->
         let len := 9 in
         mem_read buf' (len * s) len = mem_read (kzalloc 18) (len * s) len
         /\ mem_read frame (1 + len * s) len
            = mem_read (kzalloc 18) (len * s) len.
Proof.
  apply (call_writes_own_slot_only linear_scaling router 0 255 0
           (mixed_led miwifi_ws2812b_spi_led 0 255 0 0) (kzalloc 18));
    reflexivity.
Defined.

Lemma write_failure_keeps_new_pixel_witness :
  exists rv gv bv p d1 buf1,
    channel_values
      (linear_scaling (mc_ldev (mixed_led miwifi_ws2812b_spi_led 0 255 0 0)) 255)
    = Some (rv, gv, bv)
    /\ ws2812b_set_pixel_value spix_on_entry rv gv bv = Some p
    /\ ws2812b_rgb_led_brightness_set_blocking linear_scaling true (-5) router
         0 255
       = Some (-5, d1)
    /\ chip_cmd_buffer d1 = Some buf1
    /\ mem_read buf1 0 sizeof_spix = Some (pixel_bytes p)
    /\ forall (k2 : nat) (v2 : Z) (led2 : spi_ws2812b_led),
         nth_error (leds router) k2 = Some led2 ->
         k2 <> 0%nat ->
         cdef led2 = miwifi_ws2812b_spi_led ->
         chip_id led2 <> 0 ->
         call_ready linear_scaling router k2 v2 = true ->
         exists d2 frame,
           ws2812b_rgb_led_brightness_set_blocking linear_scaling true 0 d1
             k2 v2
           = Some (0, d2)
           /\ bus d2 = bus d1 ++ [WriteCall k2 frame; WriteReturn k2 0]
           /\ mem_read frame (1 + 0) sizeof_spix = Some (pixel_bytes p).
Proof.
  apply (write_failure_keeps_new_pixel linear_scaling router 0 255 (-5)
           (mixed_led miwifi_ws2812b_spi_led 0 255 0 0) (kzalloc 18));
    reflexivity.
Defined.

(** The same on the second LED: after a failed write on LED 0 the frame
    of LED 1 has the red pixel of LED 0 in its first slot. *)
Example failed_write_is_sent_by_next_call :
  exists d1 d2,
    ws2812b_rgb_led_brightness_set_blocking linear_scaling true (-5) router
      0 255 = Some (-5, d1)
    /\ ws2812b_rgb_led_brightness_set_blocking linear_scaling true 0 d1 1 255
       = Some (0, d2)
    /\ bus d2
       = [ WriteCall 0 [0; 219; 109; 182; 146; 73; 36; 146; 73; 36;
                         0; 0; 0; 0; 0; 0; 0; 0; 0; 0];
           WriteReturn 0 (-5);
           WriteCall 1 [0; 219; 109; 182; 146; 73; 36; 146; 73; 36;
                         146; 73; 36; 146; 73; 36; 219; 109; 182; 0];
           WriteReturn 1 0 ].
Proof.
  eexists _, _.
  split; [ vm_compute; reflexivity | ].
  split; vm_compute; reflexivity.
Qed.

(** C2 as written fails: with red 255 and green and blue 0 the pixel
    starts with the triplet of red, not with that of green. *)
Lemma pixel_wire_order_is_not_grb :
  exists p,
    ws2812b_set_pixel_value spix_on_entry 255 0 0 = Some p
    /\ encode 0 = Some [146; 73; 36]
    /\ encode 255 = Some [219; 109; 182]
    /\ pixel_bytes p = [219; 109; 182] ++ [146; 73; 36] ++ [146; 73; 36]
    /\ pixel_bytes p <> [146; 73; 36] ++ [219; 109; 182] ++ [146; 73; 36].
Proof.
  eexists. split; [ vm_compute; reflexivity | ].
  repeat split; try (vm_compute; reflexivity).
  cbn. discriminate.
Qed.

Lemma pixel_wire_order_is_rgb_witness :
  exists rv gv bv er eg eb d' buf' frame,
    channel_values
      (linear_scaling (mc_ldev (mixed_led miwifi_ws2812b_spi_led 1 0 0 255)) 255)
    = Some (rv, gv, bv)
    /\ encode rv = Some er /\ encode gv = Some eg /\ encode bv = Some eb
    /\ ws2812b_rgb_led_brightness_set_blocking linear_scaling true 0 router
         1 255
       = Some (0, d')
    /\ chip_cmd_buffer d' = Some buf'
    /\ mem_read buf' 9 sizeof_spix = Some (er ++ eg ++ eb)
    /\ bus d' = bus router ++ [WriteCall 1 frame; WriteReturn 1 0]
    /\ mem_read frame (1 + 9) sizeof_spix = Some (er ++ eg ++ eb).
Proof.
  apply (proj2 (pixel_wire_order_is_rgb linear_scaling) router 1%nat 255 0
           (mixed_led miwifi_ws2812b_spi_led 1 0 0 255) (kzalloc 18));
    reflexivity.
Defined.

Lemma probe_rejects_topology_mismatch_witness :
  exists d',
    spi_ws2812b_probe linear_scaling quiet_env (Some miwifi_ws2812b_spi_led)
      [ {| default_state := None |} ] unbound_device
    = Some (- ENODEV, d')
    /\ d' = unbound_device
    /\ (unbound_device = unbound_device ->
        chip_cmd_buffer d' = None /\ leds d' = [] /\ registered d' = []
        /\ bus d' = []).
Proof.
  apply (probe_rejects_topology_mismatch linear_scaling quiet_env
           miwifi_ws2812b_spi_led [ {| default_state := None |} ]
           unbound_device).
  right. cbn. lia.
Defined.

(** With both children present the probe goes through: two LEDs, two
    initial frames, both registered, and each LED ready for calls. *)
Example probe_accepts_matching_topology :
  exists d,
    spi_ws2812b_probe linear_scaling quiet_env (Some miwifi_ws2812b_spi_led)
      two_nodes unbound_device = Some (0, d)
    /\ registered d = [0; 1]%nat
    /\ map led_ctrl_cmd (leds d) = [0; 9]
    /\ map chip_id (leds d) = [0; 1]
    /\ length (bus d) = 4%nat
    /\ call_ready linear_scaling d 0 255 = true
    /\ call_ready linear_scaling d 1 255 = true.
Proof.
  eexists. split; [ vm_compute; reflexivity | ].
  repeat (split; [ vm_compute; reflexivity | ]).
  vm_compute; reflexivity.
Qed.

(** The scenario of the specification: two chips, LED 0 set to full
    red.  Twenty bytes, the pad, the pixel of LED 0 with its red triplet
    first, the slot of LED 1 as it was, the pad. *)
Example router_full_red_frame :
  exists d,
    ws2812b_rgb_led_brightness_set_blocking linear_scaling true 0 router 0 255
    = Some (0, d)
    /\ bus d = [ WriteCall 0 [0; 219; 109; 182; 146; 73; 36; 146; 73; 36;
                              0; 0; 0; 0; 0; 0; 0; 0; 0; 0];
                 WriteReturn 0 0 ].
Proof. eexists. split; vm_compute; reflexivity. Qed.

(** A chain of 32 chips, which no entry of the match table describes:
    the group would have 288 bytes and the frame 290, but the frame
    length is kept in an [unsigned char]: it is 32, the frame has 34
    bytes, and copying the 288 bytes of the group buffer into it runs
    past its end. *)
Theorem frame_length_wraps_on_long_chain :
  chip_num chain32 * led_ctrl_cmd_len chain32 + 2 = 290
  /\ call_ready linear_scaling chain32_device 0 255 = true
  /\ frame_fits chain32 = false
  /\ (exists t,
         step_alloc chain32_device (enter 0 255 true 0)
         = Some (chain32_device, t)
         /\ ctrl_cmd_len t = 32
         /\ length (ctrl_cmd_head t) = 34%nat)
  /\ ws2812b_rgb_led_brightness_set_blocking linear_scaling true 0
       chain32_device 0 255 = None
  /\ spi_ws2812b_probe linear_scaling quiet_env (Some chain32)
       (repeat {| default_state := None |} 32) unbound_device = None.
Proof.
  split; [ reflexivity | ]. split; [ reflexivity | ].
  split; [ reflexivity | ].
  split; [ eexists; repeat split; vm_compute; reflexivity | ].
  split; vm_compute; reflexivity.
Qed.

(** C6 on the router as probed: one caller per LED.  Each takes the
    mutex of its own LED object, so the second is not held back: it
    enters [spi_write] while the first has not returned from it. *)
Theorem writes_of_two_leds_overlap :
  exists c f0 f1,
    run_schedule linear_scaling two_callers
      [0; 0; 0; 0; 0; 0; 1; 1; 1; 1; 1; 1]%nat = Some c
    /\ at_pc c 0 InWrite
    /\ at_pc c 1 InWrite
    /\ map mutex (leds (dev c)) = [true; true]
    /\ bus (dev c) = bus probed_router ++ [WriteCall 0 f0; WriteCall 1 f1].
Proof.
  eexists _, _, _. split; [ vm_compute; reflexivity | ].
  split; [ eexists; split; reflexivity | ].
  split; [ eexists; split; reflexivity | ].
  split; reflexivity.
Qed.

(** What the overlap costs.  The caller on LED 1 copies the group buffer
    before the caller on LED 0 has stored its red pixel, and writes
    after it: the last frame on the wire shows LED 0 dark although the
    buffer holds its red pixel. *)
Example late_frame_misses_other_led :
  exists c,
    run_schedule linear_scaling two_callers_mixed
      [0; 0; 0; 1; 1; 1; 1; 1; 0; 0; 0; 0; 1; 1; 0; 1]%nat = Some c
    /\ at_pc c 0 Returned
    /\ at_pc c 1 Returned
    /\ chip_cmd_buffer (dev c)
       = Some [219; 109; 182; 146; 73; 36; 146; 73; 36;
               146; 73; 36; 146; 73; 36; 219; 109; 182]
    /\ bus (dev c)
       = [ WriteCall 0 [0; 219; 109; 182; 146; 73; 36; 146; 73; 36;
                         146; 73; 36; 146; 73; 36; 219; 109; 182; 0];
           WriteReturn 0 0;
           WriteCall 1 [0; 0; 0; 0; 0; 0; 0; 0; 0; 0;
                         146; 73; 36; 146; 73; 36; 219; 109; 182; 0];
           WriteReturn 1 0 ].
Proof.
  eexists. split; [ vm_compute; reflexivity | ].
  split; [ eexists; split; reflexivity | ].
  split; [ eexists; split; reflexivity | ].
  split; reflexivity.
Qed.

(** Two callers on one LED are kept apart: while the first holds the
    mutex the second cannot take its step. *)
Example same_led_callers_are_serialized :
  exists c t,
    run_schedule linear_scaling same_led_callers [0; 0; 1]%nat = Some c
    /\ nth_error (threads c) 1 = Some t
    /\ t_pc t = AtLock
    /\ step linear_scaling (dev c) t = Blocked
    /\ run_schedule linear_scaling same_led_callers
         [0; 0; 1; 0; 0; 0; 0; 0; 0; 1; 1; 1; 1; 1; 1; 1]%nat <> None.
Proof.
  eexists _, _. split; [ vm_compute; reflexivity | ].
  repeat split; try reflexivity.
  vm_compute. discriminate.
Qed.

(** * Further properties of the driver *)

(** ** Every call that returns *)

Section ReturningCalls.

Variable calc : led_classdev_mc -> Z -> led_classdev_mc.

Lemma run_call_step_inv (f : nat) (d d' : device) (t : thread) (rv : Z) :
  returned t = false ->
  run_call calc (S f) d t = Some (rv, d') ->
  exists d1 t1,
    step calc d t = Progress d1 t1 /\ run_call calc f d1 t1 = Some (rv, d').
Proof.
  intros Hr H. rewrite run_call_unfold, Hr in H.
  destruct (step calc d t) as [d1 t1 | | ]; try discriminate.
  now exists d1, t1.
Qed.

Lemma progress_inj (d d1 : device) (t t1 : thread) :
  Progress d t = Progress d1 t1 -> d1 = d /\ t1 = t.
Proof. intros H. inversion H. auto. Qed.

(** What a call that returns has done, read back from its steps. *)
Lemma call_summary (alloc_ok : bool) (spi_ret : Z) (d d' : device) (k : nat)
    (v rv : Z) :
  ws2812b_rgb_led_brightness_set_blocking calc alloc_ok spi_ret d k v
  = Some (rv, d') ->
  (alloc_ok = false /\ rv = - ENOMEM /\ d' = d
   /\ exists led, nth_error (leds d) k = Some led)
  \/ (alloc_ok = true /\ rv = spi_ret
      /\ exists led buf buf' leds' p frame src,
           nth_error (leds d) k = Some led
           /\ mutex led = false
           /\ chip_cmd_buffer d = Some buf
           /\ (exists cr cg cb,
                  channel_values (calc (mc_ldev led) v) = Some (cr, cg, cb)
                  /\ ws2812b_set_pixel_value spix_on_entry cr cg cb = Some p)
           /\ mem_write buf (led_ctrl_cmd led) (pixel_bytes p) = Some buf'
           /\ list_set (leds d) k (with_mc_ldev led (calc (mc_ldev led) v))
              = Some leds'
           /\ mem_read buf'
                (led_ctrl_cmd led - led_ctrl_cmd_len (cdef led) * chip_id led)
                (led_ctrl_cmd_len (cdef led) * chip_num (cdef led))
              = Some src
           /\ mem_write
                (kzalloc (to_u8 (chip_num (cdef led)
                                 * led_ctrl_cmd_len (cdef led)) + 2))
                1 src
              = Some frame
           /\ d' = {| chip_cmd_buffer := Some buf';
                      leds := leds';
                      drvdata := drvdata d;
                      registered := registered d;
                      bus := bus d ++ [WriteCall k frame;
                                       WriteReturn k spi_ret] |}).
Proof.
  unfold ws2812b_rgb_led_brightness_set_blocking. intros H.
  (* kzalloc *)
  apply run_call_step_inv in H; [ | reflexivity ].
  destruct H as (d1 & t1 & Hs & H).
  unfold enter in Hs. thread_norm_in Hs. unfold step_alloc in Hs.
  thread_norm_in Hs.
  destruct (nth_error (leds d) k) as [led | ] eqn:Hled;
    thread_norm_in Hs; [ | discriminate ].
  destruct alloc_ok; thread_norm_in Hs; apply progress_inj in Hs; destruct Hs as [-> ->].
  2:{ cbn [run_call] in H. thread_simpl_in H. inversion H. left.
      repeat (split; [ reflexivity | ]). now exists led. }
  right. split; [ reflexivity | ].
  set (L := to_u8 (chip_num (cdef led) * led_ctrl_cmd_len (cdef led))) in *.
  (* mutex_lock *)
  apply run_call_step_inv in H; [ | reflexivity ].
  destruct H as (d1 & t1 & Hs & H).
  thread_norm_in Hs. rewrite Hled in Hs.
  destruct (mutex led) eqn:Hmx; [ discriminate | ].
  unfold store_led in Hs.
  destruct (list_set (leds d) k (with_mutex led true)) as [l1 | ] eqn:Hl1;
    thread_norm_in Hs; [ | discriminate ].
  apply progress_inj in Hs; destruct Hs as [-> ->].
  pose proof (list_set_same _ _ _ _ Hl1) as Hk1.
  (* scaling and composition *)
  apply run_call_step_inv in H; [ | reflexivity ].
  destruct H as (d1 & t1 & Hs & H).
  thread_norm_in Hs.
  unfold step_scale, store_led in Hs. thread_norm_in Hs. device_simpl_in Hs.
  rewrite Hk1 in Hs. thread_norm_in Hs. led_simpl_in Hs.
  set (mc := calc (mc_ldev led) v) in *.
  rewrite (list_set_again _ _ _ _ _ Hl1) in Hs.
  destruct (list_set (leds d) k (with_mc_ldev (with_mutex led true) mc))
    as [l2 | ] eqn:Hl2; thread_norm_in Hs; [ | discriminate ].
  destruct (subled_brightness mc 0) as [cr | ] eqn:Er;
    thread_norm_in Hs; [ | discriminate ].
  destruct (subled_brightness mc 1) as [cg | ] eqn:Eg;
    thread_norm_in Hs; [ | discriminate ].
  destruct (subled_brightness mc 2) as [cb | ] eqn:Eb;
    thread_norm_in Hs; [ | discriminate ].
  destruct (ws2812b_set_pixel_value spix_on_entry cr cg cb) as [p | ] eqn:Ep;
    thread_norm_in Hs; [ | discriminate ].
  device_simpl_in Hs. apply progress_inj in Hs; destruct Hs as [-> ->].
  pose proof (list_set_same _ _ _ _ Hl2) as Hk2.
  (* save the colour *)
  apply run_call_step_inv in H; [ | reflexivity ].
  destruct H as (d1 & t1 & Hs & H).
  thread_norm_in Hs.
  unfold step_save in Hs. thread_norm_in Hs. device_simpl_in Hs.
  rewrite Hk2 in Hs. thread_norm_in Hs. led_simpl_in Hs.
  destruct (chip_cmd_buffer d) as [buf | ] eqn:Hbuf;
    thread_norm_in Hs; [ | discriminate ].
  destruct (mem_write buf (led_ctrl_cmd led) (pixel_bytes p)) as [buf' | ] eqn:Hw;
    thread_norm_in Hs; [ | discriminate ].
  device_simpl_in Hs. apply progress_inj in Hs; destruct Hs as [-> ->].
  (* copy the group buffer into the frame *)
  apply run_call_step_inv in H; [ | reflexivity ].
  destruct H as (d1 & t1 & Hs & H).
  thread_norm_in Hs.
  unfold step_copy in Hs. thread_norm_in Hs. device_simpl_in Hs.
  rewrite Hk2 in Hs. thread_norm_in Hs. led_simpl_in Hs.
  destruct (mem_read buf' _ _) as [src | ] eqn:Hsrc;
    thread_norm_in Hs; [ | discriminate ].
  destruct (mem_write (kzalloc (L + 2)) 1 src) as [frame | ] eqn:Hframe;
    thread_norm_in Hs; [ | discriminate ].
  apply progress_inj in Hs; destruct Hs as [-> ->].
  (* spi_write *)
  apply run_call_step_inv in H; [ | reflexivity ].
  destruct H as (d1 & t1 & Hs & H).
  thread_norm_in Hs.
  unfold step_write in Hs. thread_norm_in Hs. device_simpl_in Hs.
  assert (HL : 0 <= L) by (apply Z.mod_pos_bound; lia).
  assert (Hflen : Z.of_nat (length frame) = L + 2).
  { rewrite (mem_write_length _ _ _ _ Hframe), kzalloc_length. lia. }
  rewrite <- Hflen, mem_read_all in Hs. thread_norm_in Hs.
  apply progress_inj in Hs; destruct Hs as [-> ->].
  apply run_call_step_inv in H; [ | reflexivity ].
  destruct H as (d1 & t1 & Hs & H).
  thread_norm_in Hs.
  unfold step_written in Hs. thread_norm_in Hs. device_simpl_in Hs.
  apply progress_inj in Hs; destruct Hs as [-> ->].
  (* mutex_unlock *)
  apply run_call_step_inv in H; [ | reflexivity ].
  destruct H as (d1 & t1 & Hs & H).
  thread_norm_in Hs.
  unfold step_unlock, store_led in Hs. thread_norm_in Hs. device_simpl_in Hs.
  rewrite Hk2 in Hs. thread_norm_in Hs.
  replace (with_mutex (with_mc_ldev (with_mutex led true) mc) false)
    with (with_mc_ldev led mc) in Hs
    by (unfold with_mc_ldev, with_mutex; led_simpl; now rewrite Hmx).
  rewrite (list_set_again _ _ _ _ _ Hl2) in Hs.
  destruct (list_set (leds d) k (with_mc_ldev led mc)) as [l3 | ] eqn:Hl3;
    thread_norm_in Hs; [ | discriminate ].
  apply progress_inj in Hs; destruct Hs as [-> ->].
  cbn [run_call] in H. thread_simpl_in H.
  unfold with_leds, with_bus, with_buffer in H. device_simpl_in H.
  rewrite <- app_assoc in H. cbn [app] in H.
  inversion H. subst rv. split; [ reflexivity | ].
  exists led, buf, buf', l3, p, frame, src.
  repeat (split; [ first [ reflexivity | assumption ] | ]).
  split.
  { exists cr, cg, cb. split; [ | exact Ep ].
    unfold channel_values. fold mc. rewrite Er, Eg, Eb. reflexivity. }
  repeat (split; [ first [ reflexivity | assumption ] | ]).
  reflexivity.
Qed.

(** The frame of a call that returns: the copy fitted it, so the group
    has fewer than 256 bytes and the frame is pad, payload, pad. *)
Lemma returned_frame_shape (len num : Z) (src frame : list Z) :
  Z.of_nat (length src) = len * num ->
  mem_write (kzalloc (to_u8 (num * len) + 2)) 1 src = Some frame ->
  num * len < 256 /\ frame = 0 :: src ++ [0].
Proof.
  intros Hsrc Hw.
  assert (Hfit : num * len < 256).
  { unfold mem_write in Hw.
    destruct (1 + Z.of_nat (length src)
              <=? Z.of_nat (length (kzalloc (to_u8 (num * len) + 2)))) eqn:E;
      [ | rewrite andb_false_r in Hw; discriminate ].
    apply Z.leb_le in E. rewrite kzalloc_length, Hsrc in E.
    pose proof (Z.mul_comm len num) as Hc. rewrite Hc in E.
    unfold to_u8 in E.
    generalize dependent (num * len). intros P. intros.
    pose proof (Z.mod_pos_bound P 256 ltac:(lia)).
    destruct (Z_lt_ge_dec P 256) as [ | Hge ]; [ assumption | ].
    pose proof (Z.div_mod P 256 ltac:(lia)).
    assert (1 <= P / 256) by (apply Z.div_le_lower_bound; lia). lia. }
  split; [ exact Hfit | ].
  assert (H0 : 0 <= num * len)
    by (rewrite Z.mul_comm, <- Hsrc; lia).
  unfold to_u8 in Hw. rewrite Z.mod_small in Hw by lia.
  replace (num * len) with (Z.of_nat (length src)) in Hw
    by (rewrite Hsrc; apply Z.mul_comm).
  rewrite frame_assembly in Hw. now inversion Hw.
Qed.

Lemma mem_read_length (mem out : list Z) (off len : Z) :
  mem_read mem off len = Some out -> Z.of_nat (length out) = len.
Proof.
  unfold mem_read.
  destruct ((0 <=? off) && (0 <=? len)
            && (off + len <=? Z.of_nat (length mem))) eqn:E; [ | discriminate ].
  apply andb_prop in E. destruct E as [E E2].
  apply andb_prop in E. destruct E as [E0 E1].
  apply Z.leb_le in E0, E1, E2.
  intros H. inversion H. rewrite length_firstn, length_skipn. lia.
Qed.

(** X1 (return value): a call that returns gives back [-ENOMEM] when
    [kzalloc] of the frame failed, and otherwise the very value
    [spi_write] returned, be it [-ENOMEM] itself; it never returns
    anything else. *)
Theorem call_returns_enomem_or_bus_result (alloc_ok : bool) (spi_ret : Z)
    (d d' : device) (k : nat) (v rv : Z) :
  ws2812b_rgb_led_brightness_set_blocking calc alloc_ok spi_ret d k v
  = Some (rv, d') ->
  rv = (if alloc_ok then spi_ret else - ENOMEM).
Proof.
  intros H.
  destruct (call_summary _ _ _ _ _ _ _ H) as [(Ha & Hr & _) | (Ha & Hr & _)];
    subst alloc_ok; exact Hr.
Qed.

(** X2 (lock balance): whatever path a call takes to its return, every
    mutex of the device is afterwards as the call found it; the mutex
    of the calling LED was free and is free again. *)
Theorem call_leaves_mutexes_as_found (alloc_ok : bool) (spi_ret : Z)
    (d d' : device) (k : nat) (v rv : Z) :
  ws2812b_rgb_led_brightness_set_blocking calc alloc_ok spi_ret d k v
  = Some (rv, d') ->
  map mutex (leds d') = map mutex (leds d)
  /\ (alloc_ok = true -> mutex_of d k = Some false /\ mutex_of d' k = Some false).
Proof.
  intros H.
  destruct (call_summary _ _ _ _ _ _ _ H)
    as [(Ha & _ & -> & _) | (Ha & _ & led & buf & buf' & leds' & p & frame & src
                              & Hled & Hmx & _ & _ & _ & Hset & _ & _ & ->)].
  - split; [ reflexivity | ]. rewrite Ha. discriminate.
  - device_simpl. split.
    + now apply (list_set_map mutex _ _ _ _ _ Hset Hled).
    + intros _. unfold mutex_of. device_simpl.
      rewrite Hled, (list_set_same _ _ _ _ Hset). cbn [option_map].
      led_simpl. now rewrite Hmx.
Qed.

(** X3 (one write per call): a call that returns has handed the bus
    nothing when the allocation failed, and otherwise exactly one frame,
    followed by the return of that write.  The frame is a zero byte,
    the [led_ctrl_cmd_len * chip_num] bytes of the group buffer, which
    are fewer than 256, and a zero byte. *)
Theorem call_writes_at_most_one_frame (alloc_ok : bool) (spi_ret : Z)
    (d d' : device) (k : nat) (v rv : Z) :
  ws2812b_rgb_led_brightness_set_blocking calc alloc_ok spi_ret d k v
  = Some (rv, d') ->
  (alloc_ok = false /\ bus d' = bus d)
  \/ (alloc_ok = true
      /\ exists led buf' src,
           nth_error (leds d) k = Some led
           /\ chip_cmd_buffer d' = Some buf'
           /\ mem_read buf'
                (led_ctrl_cmd led - led_ctrl_cmd_len (cdef led) * chip_id led)
                (led_ctrl_cmd_len (cdef led) * chip_num (cdef led))
              = Some src
           /\ chip_num (cdef led) * led_ctrl_cmd_len (cdef led) < 256
           /\ bus d' = bus d ++ [WriteCall k (0 :: src ++ [0]);
                                 WriteReturn k spi_ret]).
Proof.
  intros H.
  destruct (call_summary _ _ _ _ _ _ _ H)
    as [(Ha & _ & -> & _) | (Ha & _ & led & buf & buf' & leds' & p & frame & src
                              & Hled & _ & _ & _ & _ & _ & Hsrc & Hframe & ->)].
  - left. auto.
  - right. split; [ exact Ha | ].
    destruct (returned_frame_shape _ _ _ _ (mem_read_length _ _ _ _ Hsrc) Hframe)
      as [Hfit ->].
    exists led, buf', src. device_simpl. auto.
Qed.

(** X4 (what a call leaves alone): a call that returns has not touched
    the driver data, the list of registered LEDs or any other LED
    object; of its own LED object it has replaced the multicolor state
    by the scaled one, and nothing else. *)
Theorem call_touches_only_own_led (alloc_ok : bool) (spi_ret : Z)
    (d d' : device) (k : nat) (v rv : Z) :
  ws2812b_rgb_led_brightness_set_blocking calc alloc_ok spi_ret d k v
  = Some (rv, d') ->
  drvdata d' = drvdata d
  /\ registered d' = registered d
  /\ length (leds d') = length (leds d)
  /\ (forall k2, k2 <> k -> nth_error (leds d') k2 = nth_error (leds d) k2)
  /\ exists led,
       nth_error (leds d) k = Some led
       /\ nth_error (leds d') k
          = Some (if alloc_ok then with_mc_ldev led (calc (mc_ldev led) v)
                  else led).
Proof.
  intros H.
  destruct (call_summary _ _ _ _ _ _ _ H)
    as [(Ha & _ & -> & led & Hled)
       | (Ha & _ & led & buf & buf' & leds' & p & frame & src
          & Hled & _ & _ & _ & _ & Hset & _ & _ & ->)].
  - do 3 (split; [ reflexivity | ]). split; [ reflexivity | ].
    subst alloc_ok. now exists led.
  - device_simpl. subst alloc_ok.
    do 2 (split; [ reflexivity | ]).
    split; [ exact (list_set_length _ _ _ _ Hset) | ].
    split; [ intros k2 Hne; exact (list_set_other _ _ _ _ _ Hset Hne) | ].
    exists led. split; [ exact Hled | exact (list_set_same _ _ _ _ Hset) ].
Qed.

(** ** Devices in good order *)

Lemma led_ok_same_size (buf buf' : list Z) (led : spi_ws2812b_led) :
  length buf' = length buf -> led_ok buf' led = led_ok buf led.
Proof. intros H. unfold led_ok. now rewrite H. Qed.

Lemma forallb_same_size (buf buf' : list Z) (ls : list spi_ws2812b_led) :
  length buf' = length buf ->
  forallb (led_ok buf') ls = forallb (led_ok buf) ls.
Proof.
  intros H. induction ls as [ | led tl IH]; [ reflexivity | ].
  cbn [forallb]. now rewrite IH, (led_ok_same_size _ _ _ H).
Qed.

Lemma forallb_nth {A : Type} (f : A -> bool) (xs : list A) (n : nat) (x : A) :
  forallb f xs = true -> nth_error xs n = Some x -> f x = true.
Proof.
  intros H Hn. rewrite forallb_forall in H. apply H.
  now apply nth_error_In with n.
Qed.

Lemma forallb_list_set {A : Type} (f : A -> bool) (xs xs' : list A) (n : nat)
    (x : A) :
  forallb f xs = true -> f x = true -> list_set xs n x = Some xs' ->
  forallb f xs' = true.
Proof.
  revert n xs'. induction xs as [ | a tl IH]; intros [ | n] xs' H Hx Hs;
    simpl in *; try discriminate.
  - inversion Hs. subst. simpl. apply andb_prop in H. destruct H as [_ H].
    now rewrite Hx, H.
  - destruct (list_set tl n x) as [tl' | ] eqn:E; [ | discriminate ].
    simpl in Hs. inversion Hs. subst. simpl.
    apply andb_prop in H. destruct H as [Ha H].
    now rewrite Ha, (IH n tl').
Qed.

Lemma led_ok_inv (buf : list Z) (led : spi_ws2812b_led) :
  led_ok buf led = true ->
  mutex led = false
  /\ led_ctrl_cmd led = led_ctrl_cmd_len (cdef led) * chip_id led
  /\ 0 <= chip_id led < chip_num (cdef led)
  /\ sizeof_spix <= led_ctrl_cmd_len (cdef led)
  /\ Z.of_nat (length buf) = led_ctrl_cmd_len (cdef led) * chip_num (cdef led)
  /\ frame_fits (cdef led) = true
  /\ (3 <= length (subled_info (mc_ldev led)))%nat.
Proof.
  unfold led_ok. intros H.
  do 7 (apply andb_prop in H; destruct H as [H ?]).
  repeat match goal with
         | X : negb _ = true |- _ => apply negb_true_iff in X
         | X : (_ =? _) = true |- _ => apply Z.eqb_eq in X
         | X : (_ <=? _) = true |- _ => apply Z.leb_le in X
         | X : (_ <? _) = true |- _ => apply Z.ltb_lt in X
         | X : (_ <=? _)%nat = true |- _ => apply Nat.leb_le in X
         end.
  repeat split; assumption.
Qed.

Lemma led_ok_intro (buf : list Z) (led : spi_ws2812b_led) :
  mutex led = false ->
  led_ctrl_cmd led = led_ctrl_cmd_len (cdef led) * chip_id led ->
  0 <= chip_id led < chip_num (cdef led) ->
  sizeof_spix <= led_ctrl_cmd_len (cdef led) ->
  Z.of_nat (length buf) = led_ctrl_cmd_len (cdef led) * chip_num (cdef led) ->
  frame_fits (cdef led) = true ->
  (3 <= length (subled_info (mc_ldev led)))%nat ->
  led_ok buf led = true.
Proof.
  intros Hmx Hptr [Hlo Hhi] Hsz Hlen Hfit Hsub. unfold led_ok.
  rewrite Hmx, Hfit. cbn [negb andb].
  repeat (apply andb_true_intro; split);
    first [ reflexivity | now apply Z.eqb_eq | now apply Z.leb_le
          | now apply Z.ltb_lt | now apply Nat.leb_le ].
Qed.

Lemma ok_device_is_ready (d : device) (k : nat) (v : Z) (buf : list Z)
    (led : spi_ws2812b_led) :
  keeps_subleds calc ->
  chip_cmd_buffer d = Some buf ->
  nth_error (leds d) k = Some led ->
  led_ok buf led = true ->
  call_ready calc d k v = true /\ frame_fits (cdef led) = true.
Proof.
  intros Hkeep Hbuf Hled Hok.
  destruct (led_ok_inv _ _ Hok) as (Hmx & Hptr & [Hlo Hhi] & Hsz & Hlen & Hfit & Hsub).
  split; [ | exact Hfit ].
  unfold call_ready. rewrite Hled, Hbuf, Hmx, Hkeep. cbn [negb andb].
  repeat (apply andb_true_intro; split);
    first [ reflexivity | now apply Z.eqb_eq | now apply Z.leb_le
          | now apply Z.ltb_lt | now apply Nat.leb_le ].
Qed.

Lemma call_without_frame (spi_ret : Z) (d : device) (k : nat) (v : Z)
    (led : spi_ws2812b_led) :
  nth_error (leds d) k = Some led ->
  ws2812b_rgb_led_brightness_set_blocking calc false spi_ret d k v
  = Some (- ENOMEM, d).
Proof.
  intros Hled.
  unfold ws2812b_rgb_led_brightness_set_blocking, enter.
  rewrite run_call_unfold. thread_simpl.
  unfold step_alloc. thread_simpl. rewrite Hled. thread_simpl.
  cbn [run_call]. thread_simpl. reflexivity.
Qed.

(** On a device in good order a call returns, and leaves the device
    in good order. *)
Lemma call_on_ok_device (alloc_ok : bool) (spi_ret : Z) (d : device) (k : nat)
    (v : Z) :
  keeps_subleds calc ->
  device_ok d = true ->
  (k < length (leds d))%nat ->
  exists rv d',
    ws2812b_rgb_led_brightness_set_blocking calc alloc_ok spi_ret d k v
    = Some (rv, d')
    /\ device_ok d' = true
    /\ length (leds d') = length (leds d).
Proof.
  intros Hkeep Hok Hk. unfold device_ok in Hok.
  destruct (chip_cmd_buffer d) as [buf | ] eqn:Hbuf; [ | discriminate ].
  destruct (nth_error (leds d) k) as [led | ] eqn:Hled;
    [ | apply nth_error_None in Hled; lia ].
  pose proof (forallb_nth _ _ _ _ Hok Hled) as Hledok.
  destruct alloc_ok.
  - destruct (ok_device_is_ready d k v buf led Hkeep Hbuf Hled Hledok)
      as [Hready Hfit].
    destruct (call_runs calc d k v spi_ret led buf Hled Hbuf Hready Hfit)
      as (cr & cg & cb & p & leds' & buf' & _ & _ & Hset & Hw & Hcall).
    eexists _, _. split; [ exact Hcall | ].
    unfold device_ok. device_simpl.
    pose proof (mem_write_length _ _ _ _ Hw) as Hlen.
    split; [ | exact (list_set_length _ _ _ _ Hset) ].
    rewrite (forallb_same_size _ _ _ Hlen).
    apply (forallb_list_set (led_ok buf) (leds d) leds' k
             (with_mc_ldev led (calc (mc_ldev led) v)) Hok); [ | exact Hset ].
    destruct (led_ok_inv _ _ Hledok)
      as (Hmx & Hptr & Hid & Hsz & Hlen' & Hfit' & Hsub).
    apply led_ok_intro; led_simpl; auto.
    now rewrite Hkeep.
  - exists (- ENOMEM), d.
    split; [ exact (call_without_frame spi_ret d k v led Hled) | ].
    unfold device_ok. rewrite Hbuf. auto.
Qed.

(** X7 (no call faults): on a device in good order every sequence of
    calls on its LEDs runs through, whatever allocations and bus writes
    fail on the way: one value is returned per call, and the device is
    in good order afterwards. *)
Theorem calls_on_ok_device_never_fault (d : device) (rs : list request) :
  keeps_subleds calc ->
  device_ok d = true ->
  Forall (fun rq => (rq_led rq < length (leds d))%nat) rs ->
  exists rets d',
    serve calc d rs = Some (rets, d')
    /\ length rets = length rs
    /\ device_ok d' = true.
Proof.
  intros Hkeep. revert d.
  induction rs as [ | rq rs IH]; intros d Hok Hall.
  - exists [], d. auto.
  - inversion Hall as [ | ? ? Hrq Hrest ]. subst.
    destruct (call_on_ok_device (rq_alloc_ok rq) (rq_spi_ret rq) d (rq_led rq)
                (rq_brightness rq) Hkeep Hok Hrq)
      as (rv & d1 & Hcall & Hok1 & Hlen1).
    destruct (IH d1 Hok1) as (rets & d' & Hserve & Hlen & Hok').
    { now rewrite Hlen1. }
    exists (rv :: rets), d'. cbn [serve]. rewrite Hcall. cbn [bind snd fst].
    rewrite Hserve. cbn [bind snd fst length]. auto.
Qed.

End ReturningCalls.

(** ** What the probe leaves behind *)

Section ProbeFacts.

Variable calc : led_classdev_mc -> Z -> led_classdev_mc.

Lemma assign_subled_length (subs subs' : list mc_subled) (i : nat)
    (c : led_color_id) (ch : Z) :
  assign_subled subs i c ch = Some subs' ->
  length subs' = length subs /\ (i < length subs)%nat.
Proof.
  unfold assign_subled.
  destruct (nth_error subs i) as [s | ] eqn:E; [ | discriminate ].
  cbn [bind]. intros H. split; [ exact (list_set_length _ _ _ _ H) | ].
  apply nth_error_Some. congruence.
Qed.

Lemma init_subled_info_length (n : Z) (subs : list mc_subled) :
  init_subled_info n = Some subs -> (3 <= length subs)%nat.
Proof.
  unfold init_subled_info.
  destruct (assign_subled _ 0 _ _) as [s0 | ] eqn:E0; [ | discriminate ].
  cbn [bind].
  destruct (assign_subled s0 1 _ _) as [s1 | ] eqn:E1; [ | discriminate ].
  cbn [bind]. intros E2.
  destruct (assign_subled_length _ _ _ _ _ E2) as [H2 H2'].
  lia.
Qed.

Lemma call_keeps_registration (alloc_ok : bool) (spi_ret : Z) (d d' : device)
    (k : nat) (v rv : Z) :
  ws2812b_rgb_led_brightness_set_blocking calc alloc_ok spi_ret d k v
  = Some (rv, d') ->
  registered d' = registered d /\ drvdata d' = drvdata d
  /\ length (leds d') = length (leds d).
Proof.
  intros H.
  destruct (call_summary _ _ _ _ _ _ _ _ H)
    as [(_ & _ & -> & _)
       | (_ & _ & led & buf & buf' & leds' & p & frame & src
          & _ & _ & _ & _ & _ & Hset & _ & _ & ->)].
  - auto.
  - device_simpl. repeat split. exact (list_set_length _ _ _ _ Hset).
Qed.

Lemma probe_children_codes (children : list device_node) :
  forall (env : probe_env) (cd : spi_ws2812b_chipdef) (d : device)
         (cur_chip_id : Z) (i : nat) (rv : Z) (d' : device),
    probe_children calc env cd d cur_chip_id i children = Some (rv, d') ->
    rv = 0 \/ rv = - ENOMEM.
Proof.
  induction children as [ | chip_node rest IH];
    intros env cd d cur i rv d'; cbn [probe_children].
  - intros H. inversion H. auto.
  - destruct (led_alloc_ok env i); cbn [negb];
      [ | intros H; inversion H; auto ].
    destruct (subled_alloc_ok env i); cbn [negb];
      [ | intros H; inversion H; auto ].
    destruct (init_subled_info (led_num_channels cd)) as [subs | ];
      [ | discriminate ].
    cbn [bind]. cbv zeta.
    match goal with
    | |- context [ws2812b_rgb_led_brightness_set_blocking calc ?a ?s ?d0 ?k ?v] =>
        destruct (ws2812b_rgb_led_brightness_set_blocking calc a s d0 k v)
          as [res | ]; [ | discriminate ]
    end.
    cbn [bind].
    destruct (register_ret env i <? 0); [ intros H; inversion H; auto | ].
    apply IH.
Qed.

(** The loop returns 0 exactly when, for each child, the LED and its
    sub-LEDs could be allocated and the registration did not fail. *)
Lemma probe_children_zero_iff (children : list device_node) :
  forall (env : probe_env) (cd : spi_ws2812b_chipdef) (d : device)
         (cur_chip_id : Z) (i : nat) (rv : Z) (d' : device),
    probe_children calc env cd d cur_chip_id i children = Some (rv, d') ->
    (rv = 0 <->
     forall j, (j < length children)%nat ->
               led_alloc_ok env (i + j) = true
               /\ subled_alloc_ok env (i + j) = true
               /\ 0 <= register_ret env (i + j)).
Proof.
  induction children as [ | chip_node rest IH];
    intros env cd d cur i rv d'; cbn [probe_children].
  - intros H. inversion H. split; [ | reflexivity ].
    intros _ j Hj. cbn [length] in Hj. lia.
  - assert (Hstop : forall x : device,
               (led_alloc_ok env i = false \/ subled_alloc_ok env i = false
                \/ register_ret env i < 0) ->
               Some (- ENOMEM, x) = Some (rv, d') ->
               (rv = 0 <->
                forall j, (j < length (chip_node :: rest))%nat ->
                          led_alloc_ok env (i + j) = true
                          /\ subled_alloc_ok env (i + j) = true
                          /\ 0 <= register_ret env (i + j))).
    { intros x Hbad H. inversion H. unfold ENOMEM. split; [ discriminate | ].
      intros Hall. specialize (Hall 0%nat ltac:(cbn [length]; lia)).
      rewrite Nat.add_0_r in Hall. destruct Hall as (Ga & Gb & Gc).
      destruct Hbad as [Hb | [Hb | Hb]]; [ congruence | congruence | lia ]. }
    destruct (led_alloc_ok env i) eqn:Eled; cbn [negb];
      [ | apply Hstop; auto ].
    destruct (subled_alloc_ok env i) eqn:Esub; cbn [negb];
      [ | apply Hstop; auto ].
    destruct (init_subled_info (led_num_channels cd)) as [subs | ];
      [ | discriminate ].
    cbn [bind]. cbv zeta.
    match goal with
    | |- context [ws2812b_rgb_led_brightness_set_blocking calc ?a ?s ?d0 ?k ?v] =>
        destruct (ws2812b_rgb_led_brightness_set_blocking calc a s d0 k v)
          as [res | ]; [ | discriminate ]
    end.
    cbn [bind].
    destruct (register_ret env i <? 0) eqn:Ereg.
    + apply Z.ltb_lt in Ereg. apply Hstop. auto.
    + apply Z.ltb_ge in Ereg. clear Hstop. intros H.
      apply IH in H. rewrite H. clear H. split.
      * intros Hall [ | j] Hj.
        -- rewrite Nat.add_0_r. auto.
        -- replace (i + S j)%nat with (S i + j)%nat by lia.
           apply Hall. cbn [length] in Hj. lia.
      * intros Hall j Hj.
        replace (S i + j)%nat with (i + S j)%nat by lia.
        apply Hall. cbn [length]. lia.
Qed.

(** X9 (probe return values): the probe returns 0, [-ENODEV] or
    [-ENOMEM] and nothing else.  It returns [-ENODEV] exactly when
    there is no match data or the number of children is zero or not the
    chip count, and the device is then untouched.  It returns 0 exactly
    when, besides, the buffer, every LED and every sub-LED array could
    be allocated and no registration failed; a failed registration
    comes out as [-ENOMEM] whatever its own code was.  What the initial
    frame allocation and bus write of a child gave has no part in the
    value returned. *)
Theorem probe_returns_known_codes (env : probe_env)
    (match_data : option spi_ws2812b_chipdef) (children : list device_node)
    (d d' : device) (rv : Z) :
  spi_ws2812b_probe calc env match_data children d = Some (rv, d') ->
  (rv = 0 \/ rv = - ENODEV \/ rv = - ENOMEM)
  /\ (rv = - ENODEV <->
      match match_data with
      | None => True
      | Some cd => Z.of_nat (length children) = 0
                   \/ Z.of_nat (length children) <> chip_num cd
      end)
  /\ (rv = - ENODEV -> d' = d)
  /\ (rv = 0 <->
      exists cd,
        match_data = Some cd
        /\ children <> []
        /\ Z.of_nat (length children) = chip_num cd
        /\ buffer_alloc_ok env = true
        /\ forall i, (i < length children)%nat ->
                     led_alloc_ok env i = true
                     /\ subled_alloc_ok env i = true
                     /\ 0 <= register_ret env i)
  /\ (forall cd i,
         match_data = Some cd ->
         Z.of_nat (length children) = chip_num cd ->
         (i < length children)%nat ->
         register_ret env i < 0 ->
         rv = - ENOMEM).
Proof.
  unfold spi_ws2812b_probe.
  destruct match_data as [cd | ].
  2:{ intros H. inversion H. unfold ENODEV.
      split; [ auto | ]. split; [ tauto | ]. split; [ auto | ].
      split; [ | intros ? ? Hm; discriminate Hm ].
      split; [ discriminate | ]. intros (cd & Hm & _). discriminate Hm. }
  cbv zeta.
  destruct (Z.of_nat (length children) =? 0) eqn:E0.
  { apply Z.eqb_eq in E0. cbn [orb]. intros H. inversion H. unfold ENODEV.
    split; [ auto | ]. split; [ tauto | ]. split; [ auto | ].
    split.
    - split; [ discriminate | ].
      intros (cd' & _ & Hne & _). destruct children; [ congruence | ].
      cbn [length] in E0. lia.
    - intros cd' i _ _ Hi _. lia. }
  destruct (Z.of_nat (length children) =? chip_num cd) eqn:E1; cbn [negb orb].
  2:{ apply Z.eqb_neq in E1. intros H. inversion H. unfold ENODEV.
      split; [ auto | ]. split; [ tauto | ]. split; [ auto | ].
      split.
      - split; [ discriminate | ].
        intros (cd' & Hm & _ & Hc & _). inversion Hm. subst cd'. contradiction.
      - intros cd' i Hm Hc. inversion Hm. subst cd'. contradiction. }
  apply Z.eqb_neq in E0. apply Z.eqb_eq in E1.
  assert (Hne : children <> [])
    by (destruct children; [ cbn [length] in E0; lia | discriminate ]).
  destruct (buffer_alloc_ok env) eqn:Ebuf; cbn [negb].
  2:{ intros H. inversion H. unfold ENODEV, ENOMEM.
      split; [ auto | ].
      split; [ split; [ discriminate | intros [ | ]; contradiction ] | ].
      split; [ discriminate | ].
      split; [ | auto ].
      split; [ discriminate | ].
      intros (cd' & _ & _ & _ & Hb & _). discriminate Hb. }
  intros H.
  pose proof (probe_children_codes _ _ _ _ _ _ _ _ H) as Hcodes.
  pose proof (probe_children_zero_iff _ _ _ _ _ _ _ _ H) as Hzero.
  cbn [Nat.add] in Hzero. unfold ENODEV, ENOMEM in *.
  split; [ tauto | ].
  split; [ split; [ intros ->; destruct Hcodes; discriminate
                  | intros [ | ]; contradiction ] | ].
  split; [ intros ->; destruct Hcodes; discriminate | ].
  split.
  - rewrite Hzero. split.
    + intros Hall. exists cd. auto.
    + intros (cd' & Hm & _ & _ & _ & Hall). exact Hall.
  - intros cd' i _ _ Hi Hreg.
    destruct Hcodes as [Hz | Hm]; [ | exact Hm ].
    pose proof (proj1 Hzero Hz i Hi) as G. lia.
Qed.

(** The loop registers the LEDs it creates in the order it creates
    them, and moves the driver data to each in turn. *)
Lemma probe_children_registration (children : list device_node) :
  forall (env : probe_env) (cd : spi_ws2812b_chipdef) (d : device)
         (cur_chip_id : Z) (i : nat) (d' : device),
    probe_children calc env cd d cur_chip_id i children = Some (0, d') ->
    registered d' = registered d ++ seq (length (leds d)) (length children)
    /\ length (leds d') = (length (leds d) + length children)%nat
    /\ match children with
       | [] => drvdata d' = drvdata d
       | _ :: _ =>
           drvdata d' = Some (length (leds d) + length children - 1)%nat
       end.
Proof.
  induction children as [ | chip_node rest IH];
    intros env cd d cur i d'; cbn [probe_children].
  - intros H. inversion H. subst. cbn [length seq].
    now rewrite app_nil_r, Nat.add_0_r.
  - destruct (led_alloc_ok env i); cbn [negb]; [ | discriminate ].
    destruct (subled_alloc_ok env i); cbn [negb]; [ | discriminate ].
    destruct (init_subled_info (led_num_channels cd)) as [subs | ];
      [ | discriminate ].
    cbn [bind]. cbv zeta.
    match goal with
    | |- context [ws2812b_rgb_led_brightness_set_blocking calc ?a ?s ?d0 ?k ?v] =>
        destruct (ws2812b_rgb_led_brightness_set_blocking calc a s d0 k v)
          as [[r1 d1] | ] eqn:Ecall; [ | discriminate ]
    end.
    cbn [bind snd].
    destruct (call_keeps_registration _ _ _ _ _ _ _ Ecall) as (Hr & Hdd & Hl).
    cbn [with_leds registered drvdata leds] in Hr, Hdd, Hl.
    rewrite length_app in Hl. cbn [length] in Hl.
    destruct (register_ret env i <? 0); [ discriminate | ].
    intros H. apply IH in H.
    cbn [with_registered with_drvdata registered leds drvdata] in H.
    destruct H as (Hreg & Hlen & Hdrv).
    rewrite Hr, Hl in Hreg. rewrite Hl in Hlen.
    split; [ | split ].
    + rewrite Hreg, <- app_assoc. cbn [length seq app].
      now replace (length (leds d) + 1)%nat with (S (length (leds d))) by lia.
    + rewrite Hlen. cbn [length]. lia.
    + destruct rest as [ | n rest'].
      * rewrite Hdrv. cbn [length]. f_equal. lia.
      * rewrite Hdrv, Hl. cbn [length]. f_equal. lia.
Qed.

(** X10 (registration): after a probe that returned 0 there is one LED
    object per available child node, all of them registered, in device
    order, and the driver data of the SPI device is the LED created
    last. *)
Theorem probe_registers_every_led (env : probe_env)
    (cd : spi_ws2812b_chipdef) (children : list device_node) (d' : device) :
  spi_ws2812b_probe calc env (Some cd) children unbound_device = Some (0, d') ->
  children <> []
  /\ length (leds d') = length children
  /\ registered d' = seq 0 (length children)
  /\ drvdata d' = Some (length children - 1)%nat.
Proof.
  unfold spi_ws2812b_probe. cbv zeta.
  destruct (Z.of_nat (length children) =? 0) eqn:E0;
    [ intros H; inversion H | ].
  destruct (negb (Z.of_nat (length children) =? chip_num cd));
    [ intros H; inversion H | ].
  cbn [orb].
  destruct (buffer_alloc_ok env); cbn [negb]; [ | intros H; inversion H ].
  intros H. apply probe_children_registration in H.
  cbn [with_buffer unbound_device registered leds drvdata length app] in H.
  destruct H as (Hreg & Hlen & Hdrv).
  apply Z.eqb_neq in E0.
  destruct children as [ | n rest]; [ cbn in E0; lia | ].
  split; [ discriminate | ]. split; [ exact Hlen | ].
  split; [ exact Hreg | exact Hdrv ].
Qed.

Lemma device_ok_with_leds (d : device) (buf : list Z)
    (ls : list spi_ws2812b_led) :
  chip_cmd_buffer d = Some buf ->
  forallb (led_ok buf) ls = true ->
  device_ok (with_leds d ls) = true.
Proof.
  intros Hbuf H. unfold device_ok. device_simpl. now rewrite Hbuf.
Qed.

(** Every pass of the loop keeps the device in good order. *)
Lemma probe_children_ok (children : list device_node) :
  forall (env : probe_env) (cd : spi_ws2812b_chipdef) (d : device)
         (cur_chip_id : Z) (i : nat) (rv : Z) (d' : device) (buf : list Z),
    keeps_subleds calc ->
    sizeof_spix <= led_ctrl_cmd_len cd ->
    frame_fits cd = true ->
    chip_cmd_buffer d = Some buf ->
    Z.of_nat (length buf) = led_ctrl_cmd_len cd * chip_num cd ->
    cur_chip_id = Z.of_nat (length (leds d)) ->
    Z.of_nat (length (leds d) + length children) <= chip_num cd ->
    device_ok d = true ->
    probe_children calc env cd d cur_chip_id i children = Some (rv, d') ->
    device_ok d' = true.
Proof.
  induction children as [ | chip_node rest IH];
    intros env cd d cur i rv d' buf Hkeep Hsz Hfit Hbuf Hlen Hcur Hcount Hok;
    cbn [probe_children].
  - intros H. inversion H. subst. exact Hok.
  - destruct (led_alloc_ok env i); cbn [negb];
      [ | intros H; inversion H; subst; exact Hok ].
    destruct (subled_alloc_ok env i); cbn [negb];
      [ | intros H; inversion H; subst; exact Hok ].
    destruct (init_subled_info (led_num_channels cd)) as [subs | ] eqn:Esubs;
      [ | discriminate ].
    cbn [bind]. cbv zeta.
    set (led := {| mc_ldev := {| led_cdev := initial_cdev chip_node;
                                 num_colors := led_num_channels cd;
                                 subled_info := subs |};
                   mutex := false; cdef := cd;
                   led_ctrl_cmd := led_ctrl_cmd_len cd * cur;
                   chip_id := cur |}).
    set (d0 := with_leds d (leds d ++ [led])).
    assert (Hledok : led_ok buf led = true).
    { apply led_ok_intro; unfold led; led_simpl; auto.
      - cbn [length] in Hcount. lia.
      - cbn [subled_info]. exact (init_subled_info_length _ _ Esubs). }
    assert (Hok0 : device_ok d0 = true).
    { apply (device_ok_with_leds d buf); [ exact Hbuf | ].
      unfold device_ok in Hok. rewrite Hbuf in Hok.
      rewrite forallb_app, Hok. cbn [forallb]. now rewrite Hledok. }
    assert (Hk : (length (leds d) < length (leds d0))%nat).
    { unfold d0. device_simpl. rewrite length_app. cbn [length]. lia. }
    destruct (call_on_ok_device calc (frame_alloc_ok env i) (spi_write_ret env i)
                d0 (length (leds d)) (cdev_brightness (initial_cdev chip_node))
                Hkeep Hok0 Hk)
      as (r1 & d1 & Hcall & Hok1 & Hlen1).
    rewrite Hcall. cbn [bind snd].
    destruct (call_keeps_layout calc _ _ _ _ _ _ _ Hcall) as [_ Hsize].
    unfold buffer_size, d0 in Hsize. device_simpl_in Hsize.
    rewrite Hbuf in Hsize. cbn [option_map] in Hsize.
    destruct (chip_cmd_buffer d1) as [buf1 | ] eqn:Hbuf1;
      [ | discriminate ].
    cbn [option_map] in Hsize. inversion Hsize as [Hsize'].
    assert (Hlen1' : length (leds d1) = S (length (leds d))).
    { rewrite Hlen1. unfold d0. device_simpl. rewrite length_app.
      cbn [length]. lia. }
    destruct (register_ret env i <? 0).
    + intros H. inversion H. subst.
      unfold device_ok in *. device_simpl. now rewrite Hbuf1 in *.
    + intros H.
      refine (IH env cd _ _ _ rv d' buf1 Hkeep Hsz Hfit _ _ _ _ _ H).
      * device_simpl. exact Hbuf1.
      * lia.
      * device_simpl. rewrite Hlen1', Hcur. unfold to_u8.
        unfold frame_fits in Hfit. apply Z.ltb_lt in Hfit.
        unfold sizeof_spix in Hsz. cbn [length] in Hcount.
        rewrite Z.mod_small; nia.
      * device_simpl. rewrite Hlen1'. cbn [length] in Hcount. lia.
      * unfold device_ok in *. device_simpl. now rewrite Hbuf1 in *.
Qed.

(** X8 (probe hands over a safe device): a probe that returned 0, for a
    chip definition whose slots hold a pixel and whose group fits the
    frame length byte, leaves the device in good order, the LEDs in the
    slots of their chip numbers 0, 1, 2, ..., and the group buffer at
    [led_ctrl_cmd_len * chip_num] bytes. *)
Theorem probe_leaves_device_in_good_order (env : probe_env)
    (cd : spi_ws2812b_chipdef) (children : list device_node) (d' : device) :
  keeps_subleds calc ->
  sizeof_spix <= led_ctrl_cmd_len cd ->
  frame_fits cd = true ->
  spi_ws2812b_probe calc env (Some cd) children unbound_device = Some (0, d') ->
  device_ok d' = true
  /\ map led_layout (leds d') = probed_layout cd (length children)
  /\ buffer_size d' = Some (Z.to_nat (led_ctrl_cmd_len cd * chip_num cd)).
Proof.
  intros Hkeep Hsz Hfit H.
  assert (Hfit' := Hfit). unfold frame_fits in Hfit'. apply Z.ltb_lt in Hfit'.
  unfold sizeof_spix in *.
  assert (Hnum : chip_num cd <= 256) by nia.
  split; [ | exact (proj2 (probe_lays_out_slots calc env cd children d' Hnum H)) ].
  revert H. unfold spi_ws2812b_probe. cbv zeta.
  destruct (Z.of_nat (length children) =? 0) eqn:E0;
    [ intros H; inversion H | ].
  destruct (Z.of_nat (length children) =? chip_num cd) eqn:E1;
    [ | intros H; inversion H ].
  cbn [negb orb]. apply Z.eqb_eq in E1.
  destruct (buffer_alloc_ok env); cbn [negb]; [ | intros H; inversion H ].
  intros H.
  apply (probe_children_ok children env cd _ _ _ _ _
           (kzalloc (led_ctrl_cmd_len cd * chip_num cd))) in H; auto.
  - rewrite kzalloc_length. nia.
  - cbn [with_buffer unbound_device leds length]. lia.
Qed.

End ProbeFacts.

(** ** Callers of one LED *)

Section ExclusionFacts.

Variable calc : led_classdev_mc -> Z -> led_classdev_mc.

Lemma store_led_mutex (d d' : device) (k : nat) (led' : spi_ws2812b_led) :
  store_led d k led' = Some d' ->
  mutex_of d' k = Some (mutex led')
  /\ forall k2, k2 <> k -> mutex_of d' k2 = mutex_of d k2.
Proof.
  unfold store_led, mutex_of.
  destruct (list_set (leds d) k led') as [ls | ] eqn:E; [ | discriminate ].
  cbn [bind]. intros H. inversion H. subst. device_simpl. split.
  - now rewrite (list_set_same _ _ _ _ E).
  - intros k2 Hne. now rewrite (list_set_other _ _ _ _ _ E Hne).
Qed.

(** What one step does to the mutexes: nothing, or it takes the free
    mutex of its own LED on entering the critical section, or it
    releases that mutex on leaving. *)
Lemma step_mutex_effect (d d' : device) (t t' : thread) :
  step calc d t = Progress d' t' ->
  t_led t' = t_led t
  /\ (forall k, k <> t_led t -> mutex_of d' k = mutex_of d k)
  /\ ((in_critical_section (t_pc t') = in_critical_section (t_pc t)
       /\ mutex_of d' (t_led t) = mutex_of d (t_led t))
      \/ (in_critical_section (t_pc t) = false
          /\ in_critical_section (t_pc t') = true
          /\ mutex_of d (t_led t) = Some false
          /\ mutex_of d' (t_led t) = Some true)
      \/ (in_critical_section (t_pc t) = true
          /\ in_critical_section (t_pc t') = false
          /\ mutex_of d' (t_led t) = Some false)).
Proof.
  unfold step.
  destruct (t_pc t) eqn:Hpc.
  - unfold step_alloc.
    destruct (nth_error (leds d) (t_led t)) as [led | ]; [ | discriminate ].
    cbn [bind]. destruct (t_alloc_ok t); cbn [progress];
      intros H; apply progress_inj in H; destruct H as [-> ->];
      (split; [ reflexivity | ]); (split; [ reflexivity | ]);
      left; split; reflexivity.
  - destruct (nth_error (leds d) (t_led t)) as [led | ] eqn:Hled;
      [ | discriminate ].
    destruct (mutex led) eqn:Hmx; [ discriminate | ].
    destruct (store_led d (t_led t) (with_mutex led true)) as [d1 | ] eqn:E;
      [ | discriminate ].
    cbn [bind progress]. intros H.
    apply progress_inj in H. destruct H as [-> ->].
    destruct (store_led_mutex _ _ _ _ E) as [Hown Hother].
    split; [ reflexivity | ]. split; [ exact Hother | ].
    right. left. repeat split; auto.
    unfold mutex_of. rewrite Hled. cbn [option_map]. now rewrite Hmx.
  - unfold step_scale.
    destruct (nth_error (leds d) (t_led t)) as [led | ] eqn:Hled;
      [ | discriminate ].
    cbn [bind].
    destruct (store_led d (t_led t) _) as [d1 | ] eqn:E; [ | discriminate ].
    cbn [bind].
    destruct (subled_brightness _ 0); [ | discriminate ]. cbn [bind].
    destruct (subled_brightness _ 1); [ | discriminate ]. cbn [bind].
    destruct (subled_brightness _ 2); [ | discriminate ]. cbn [bind].
    destruct (ws2812b_set_pixel_value _ _ _ _); [ | discriminate ].
    cbn [bind progress]. intros H.
    apply progress_inj in H. destruct H as [-> ->].
    destruct (store_led_mutex _ _ _ _ E) as [Hown Hother].
    split; [ reflexivity | ]. split; [ exact Hother | ].
    left. split; [ reflexivity | ].
    rewrite Hown. unfold mutex_of. now rewrite Hled.
  - unfold step_save.
    destruct (nth_error (leds d) (t_led t)) as [led | ]; [ | discriminate ].
    cbn [bind].
    destruct (chip_cmd_buffer d) as [buf | ]; [ | discriminate ].
    cbn [bind].
    destruct (mem_write buf _ _) as [buf' | ]; [ | discriminate ].
    cbn [bind progress]. intros H.
    apply progress_inj in H. destruct H as [-> ->].
    split; [ reflexivity | ]. split; [ reflexivity | ].
    left. split; reflexivity.
  - unfold step_copy.
    destruct (nth_error (leds d) (t_led t)) as [led | ]; [ | discriminate ].
    cbn [bind].
    destruct (chip_cmd_buffer d) as [buf | ]; [ | discriminate ].
    cbn [bind].
    destruct (mem_read buf _ _); [ | discriminate ]. cbn [bind].
    destruct (mem_write _ _ _); [ | discriminate ].
    cbn [bind progress]. intros H.
    apply progress_inj in H. destruct H as [-> ->].
    split; [ reflexivity | ]. split; [ reflexivity | ].
    left. split; reflexivity.
  - unfold step_write.
    destruct (mem_read _ _ _); [ | discriminate ].
    cbn [bind progress]. intros H.
    apply progress_inj in H. destruct H as [-> ->].
    split; [ reflexivity | ]. split; [ reflexivity | ].
    left. split; reflexivity.
  - unfold step_written. cbn [progress]. intros H.
    apply progress_inj in H. destruct H as [-> ->].
    split; [ reflexivity | ]. split; [ reflexivity | ].
    left. split; reflexivity.
  - unfold step_unlock.
    destruct (nth_error (leds d) (t_led t)) as [led | ] eqn:Hled;
      [ | discriminate ].
    cbn [bind].
    destruct (store_led d (t_led t) (with_mutex led false)) as [d1 | ] eqn:E;
      [ | discriminate ].
    cbn [bind progress]. intros H.
    apply progress_inj in H. destruct H as [-> ->].
    destruct (store_led_mutex _ _ _ _ E) as [Hown Hother].
    split; [ reflexivity | ]. split; [ exact Hother | ].
    right. right. repeat split; auto.
  - discriminate.
Qed.

Lemma sched_keeps_exclusive (c c' : config) (tid : nat) :
  exclusive c -> sched calc c tid = Some c' -> exclusive c'.
Proof.
  intros [I1 I2]. unfold sched.
  destruct (nth_error (threads c) tid) as [t | ] eqn:Ht; [ | discriminate ].
  cbn [bind].
  destruct (step calc (dev c) t) as [d1 t1 | | ] eqn:Hstep; try discriminate.
  destruct (list_set (threads c) tid t1) as [ts | ] eqn:Hts; [ | discriminate ].
  cbn [bind]. intros H. inversion H. subst c'. clear H.
  destruct (step_mutex_effect _ _ _ _ Hstep) as (Hsame & Hother & Hkind).
  assert (Hnew : nth_error ts tid = Some t1) by exact (list_set_same _ _ _ _ Hts).
  assert (Hold : forall i, i <> tid -> nth_error ts i = nth_error (threads c) i)
    by (intros i Hi; exact (list_set_other _ _ _ _ _ Hts Hi)).
  split; cbn [dev threads].
  - intros i ti Hi Hcs.
    destruct (Nat.eq_dec i tid) as [-> | Hne].
    + rewrite Hnew in Hi. inversion Hi. subst ti. rewrite Hsame.
      destruct Hkind as [[Hpc Hm] | [(_ & _ & _ & Hm) | (_ & Hpc & _)]].
      * rewrite Hm. apply (I1 tid t Ht). congruence.
      * exact Hm.
      * congruence.
    + rewrite (Hold i Hne) in Hi.
      pose proof (I1 i ti Hi Hcs) as Hheld.
      destruct (Nat.eq_dec (t_led ti) (t_led t)) as [Heq | Hdiff].
      * rewrite Heq in *.
        destruct Hkind as [[Hpc Hm] | [(_ & _ & Hfree & _) | (Hpc & _ & _)]].
        -- now rewrite Hm.
        -- congruence.
        -- assert (in_critical_section (t_pc ti) = false)
             by (apply (I2 tid i t ti); auto).
           congruence.
      * now rewrite (Hother _ Hdiff).
  - intros i j ti tj Hij Hi Hj Hled Hcs.
    destruct (Nat.eq_dec i tid) as [-> | Hi'].
    + rewrite Hnew in Hi. inversion Hi. subst ti.
      rewrite (Hold j (not_eq_sym Hij)) in Hj. rewrite Hsame in Hled.
      destruct Hkind as [[Hpc Hm] | [(_ & _ & Hfree & _) | (_ & Hpc & _)]].
      * apply (I2 tid j t tj); auto. congruence.
      * destruct (in_critical_section (t_pc tj)) eqn:Hcj; [ | reflexivity ].
        pose proof (I1 j tj Hj Hcj) as Hheld. rewrite <- Hled in Hheld.
        congruence.
      * congruence.
    + rewrite (Hold i Hi') in Hi.
      destruct (Nat.eq_dec j tid) as [-> | Hj'].
      * rewrite Hnew in Hj. inversion Hj. subst tj. rewrite Hsame in Hled.
        destruct Hkind as [[Hpc Hm] | [(_ & _ & Hfree & _) | (_ & Hpc & _)]].
        -- rewrite Hpc. apply (I2 i tid ti t); auto.
        -- pose proof (I1 i ti Hi Hcs) as Hheld. rewrite Hled in Hheld.
           congruence.
        -- exact Hpc.
      * rewrite (Hold j Hj') in Hj. apply (I2 i j ti tj); auto.
Qed.

Lemma run_schedule_keeps_exclusive (s : list nat) :
  forall c c', exclusive c -> run_schedule calc c s = Some c' -> exclusive c'.
Proof.
  induction s as [ | tid s IH]; intros c c' Hex; cbn [run_schedule].
  - intros H. inversion H. now subst.
  - destruct (sched calc c tid) as [c1 | ] eqn:E; [ | discriminate ].
    cbn [bind]. apply IH. exact (sched_keeps_exclusive _ _ _ Hex E).
Qed.

(** X11 (calls on one LED are serialized): start several calls, none
    of them inside the critical section yet, and let them run in any
    order.  Two calls on the same LED are then never both between
    [mutex_lock] and [mutex_unlock]; in particular their [spi_write]
    calls never overlap. *)
Theorem same_led_calls_never_overlap (c c' : config) (s : list nat) :
  (forall t, In t (threads c) -> in_critical_section (t_pc t) = false) ->
  run_schedule calc c s = Some c' ->
  forall i j ti tj,
    i <> j ->
    nth_error (threads c') i = Some ti ->
    nth_error (threads c') j = Some tj ->
    t_led ti = t_led tj ->
    ~ (in_critical_section (t_pc ti) = true
       /\ in_critical_section (t_pc tj) = true)
    /\ ~ (t_pc ti = InWrite /\ t_pc tj = InWrite).
Proof.
  intros Hstart Hrun i j ti tj Hij Hi Hj Hled.
  assert (Hex : exclusive c).
  { split.
    - intros n t Hn Hcs. apply nth_error_In in Hn.
      rewrite (Hstart t Hn) in Hcs. discriminate.
    - intros n m tn tm _ Hn _ _ Hcs. apply nth_error_In in Hn.
      rewrite (Hstart tn Hn) in Hcs. discriminate. }
  destruct (run_schedule_keeps_exclusive s c c' Hex Hrun) as [_ I2].
  assert (Hno : ~ (in_critical_section (t_pc ti) = true
                   /\ in_critical_section (t_pc tj) = true)).
  { intros [Ha Hb]. rewrite (I2 i j ti tj Hij Hi Hj Hled Ha) in Hb.
    discriminate. }
  split; [ exact Hno | ].
  intros [Ha Hb]. apply Hno. rewrite Ha, Hb. split; reflexivity.
Qed.

End ExclusionFacts.

(** ** Slots and stored colours *)

Section SyncFacts.

Variable calc : led_classdev_mc -> Z -> led_classdev_mc.

(** X12 (buffer follows the LED state): after a call, the slot of the
    calling LED holds the encoding of the sub-LED brightness values now
    stored in that LED, whether or not the bus write succeeded; and the
    slot of every LED of another chip that was in step with its LED
    still is. *)
Theorem call_keeps_slots_in_sync (d : device) (k : nat) (v spi_ret : Z)
    (led : spi_ws2812b_led) (buf : list Z) :
  nth_error (leds d) k = Some led ->
  chip_cmd_buffer d = Some buf ->
  call_ready calc d k v = true ->
  frame_fits (cdef led) = true ->
  exists d',
    ws2812b_rgb_led_brightness_set_blocking calc true spi_ret d k v
    = Some (spi_ret, d')
    /\ slot_in_sync d' k
    /\ forall (k2 : nat) (led2 : spi_ws2812b_led),
         k2 <> k ->
         nth_error (leds d) k2 = Some led2 ->
         led_ctrl_cmd led2 = led_ctrl_cmd_len (cdef led) * chip_id led2 ->
         chip_id led2 <> chip_id led ->
         slot_in_sync d k2 ->
         slot_in_sync d' k2.
Proof.
  intros Hled Hbuf Hready Hfits.
  destruct (call_runs calc d k v spi_ret led buf Hled Hbuf Hready Hfits)
    as (cr & cg & cb & p & leds' & buf' & Ecv & Ep & Hset & Hw & Hcall).
  destruct (call_ready_inv calc d k v led buf Hled Hbuf Hready)
    as (_ & Hptr & Hid & Hsz & Hlen & _).
  pose proof (mem_write_length _ _ _ _ Hw) as Hlen'.
  pose proof (mem_write_read_back _ _ _ _ Hw) as Hback.
  change (Z.of_nat (length (pixel_bytes p))) with sizeof_spix in Hback.
  eexists. split; [ exact Hcall | ]. split.
  - exists (with_mc_ldev led (calc (mc_ldev led) v)), buf', cr, cg, cb, p.
    device_simpl. led_simpl.
    split; [ exact (list_set_same _ _ _ _ Hset) | ]. auto.
  - intros k2 led2 Hne Hled2 Hptr2 Hcid
           (led2' & buf2 & r2 & g2 & b2 & p2 & Hl & Hb & Hc & Hp & Hr).
    assert (led2' = led2) by congruence. subst led2'.
    assert (buf2 = buf) by congruence. subst buf2.
    exists led2, buf', r2, g2, b2, p2. device_simpl.
    split; [ now rewrite (list_set_other _ _ _ _ _ Hset Hne) | ].
    split; [ reflexivity | ]. split; [ exact Hc | ]. split; [ exact Hp | ].
    rewrite <- Hr. apply mem_read_agree; [ exact Hlen' | ].
    intros j Hj. apply (mem_write_elsewhere _ _ _ _ _ Hw).
    change (Z.of_nat (length (pixel_bytes p))) with 9.
    unfold sizeof_spix in *. nia.
Qed.

End SyncFacts.

(** ** The encoder and the composer as codes *)

Lemma encoded_value_decodes (v : Z) :
  0 <= v < 256 -> round_trip_check v = true.
Proof. revert v. apply forall_u8. vm_compute. reflexivity. Qed.

Lemma encoding_is_injective_core (v w : Z) :
  0 <= v < 256 -> 0 <= w < 256 ->
  ws2812b_set_encoded_pixel v = ws2812b_set_encoded_pixel w ->
  v = w.
Proof.
  intros Hv Hw Heq.
  pose proof (encoded_value_decodes v Hv) as Cv.
  pose proof (encoded_value_decodes w Hw) as Cw.
  unfold round_trip_check in Cv, Cw. rewrite <- Heq in Cw.
  destruct (ws2812b_set_encoded_pixel v) as [e | ]; [ | discriminate ].
  destruct (decode e) as [x | ]; [ | discriminate ].
  apply Z.eqb_eq in Cv, Cw. congruence.
Qed.

(** X13 (distinct values, distinct waveforms): two different 8-bit
    values never get the same three encoded bytes. *)
Theorem encoding_is_injective (v w : Z) :
  0 <= v < 256 -> 0 <= w < 256 ->
  encode v = encode w ->
  v = w.
Proof.
  intros Hv Hw Heq. apply encoding_is_injective_core; auto.
  unfold encode in Heq.
  destruct (set_encoded_pixel_total v) as [[hv mv lv] Ev].
  destruct (set_encoded_pixel_total w) as [[hw mw lw] Ew].
  rewrite Ev, Ew in Heq. rewrite Ev, Ew.
  cbn [bind encoding_bytes h m l] in Heq. inversion Heq. reflexivity.
Qed.

(** X14 (the pixel determines the colour): the nine bytes of a composed
    pixel determine the three 8-bit channel values it was composed
    from. *)
Theorem pixel_bytes_determine_channels (s s' p p' : ws2812b_pixel)
    (rv gv bv rv' gv' bv' : Z) :
  0 <= rv < 256 -> 0 <= gv < 256 -> 0 <= bv < 256 ->
  0 <= rv' < 256 -> 0 <= gv' < 256 -> 0 <= bv' < 256 ->
  ws2812b_set_pixel_value s rv gv bv = Some p ->
  ws2812b_set_pixel_value s' rv' gv' bv' = Some p' ->
  pixel_bytes p = pixel_bytes p' ->
  rv = rv' /\ gv = gv' /\ bv = bv'.
Proof.
  intros Hr Hg Hb Hr' Hg' Hb' Hp Hp' Hbytes.
  destruct (set_pixel_value_layout s rv gv bv)
    as (er & eg & eb & Er & Eg & Eb & Hq).
  destruct (set_pixel_value_layout s' rv' gv' bv')
    as (er' & eg' & eb' & Er' & Eg' & Eb' & Hq').
  rewrite Hq in Hp. rewrite Hq' in Hp'.
  inversion Hp. inversion Hp'. subst p p'. clear Hp Hp'.
  unfold pixel_bytes, encoding_bytes in Hbytes. cbn in Hbytes.
  destruct er, eg, eb, er', eg', eb'. cbn in Hbytes.
  inversion Hbytes. subst.
  repeat split; apply encoding_is_injective_core; auto; congruence.
Qed.

(** ** The further properties on the router *)

Lemma linear_scaling_keeps_subleds : keeps_subleds linear_scaling.
Proof. intros mc x. unfold linear_scaling. cbn. apply length_map. Qed.

Lemma call_returns_enomem_or_bus_result_witness :
  -12 = (if true then -12 else - ENOMEM).
Proof.
  apply (call_returns_enomem_or_bus_result linear_scaling true (-12) router
           router_after_failed_write 0%nat 255 (-12)).
  vm_compute. reflexivity.
Defined.

Lemma call_leaves_mutexes_as_found_witness :
  map mutex (leds router_after_red) = map mutex (leds router)
  /\ (true = true ->
      mutex_of router 0 = Some false
      /\ mutex_of router_after_red 0 = Some false).
Proof.
  apply (call_leaves_mutexes_as_found linear_scaling true 0 router
           router_after_red 0%nat 255 0).
  vm_compute. reflexivity.
Defined.

Lemma call_writes_at_most_one_frame_witness :
  (true = false /\ bus router_after_red = bus router)
  \/ (true = true
      /\ exists led buf' src,
           nth_error (leds router) 0 = Some led
           /\ chip_cmd_buffer router_after_red = Some buf'
           /\ mem_read buf'
                (led_ctrl_cmd led - led_ctrl_cmd_len (cdef led) * chip_id led)
                (led_ctrl_cmd_len (cdef led) * chip_num (cdef led))
              = Some src
           /\ chip_num (cdef led) * led_ctrl_cmd_len (cdef led) < 256
           /\ bus router_after_red
              = bus router ++ [WriteCall 0 (0 :: src ++ [0]);
                               WriteReturn 0 0]).
Proof.
  apply (call_writes_at_most_one_frame linear_scaling true 0 router
           router_after_red 0%nat 255 0).
  vm_compute. reflexivity.
Defined.

Lemma call_touches_only_own_led_witness :
  drvdata router_after_red = drvdata router
  /\ registered router_after_red = registered router
  /\ length (leds router_after_red) = length (leds router)
  /\ (forall k2, k2 <> 0%nat ->
                 nth_error (leds router_after_red) k2
                 = nth_error (leds router) k2)
  /\ exists led,
       nth_error (leds router) 0 = Some led
       /\ nth_error (leds router_after_red) 0
          = Some (if true
                  then with_mc_ldev led (linear_scaling (mc_ldev led) 255)
                  else led).
Proof.
  apply (call_touches_only_own_led linear_scaling true 0 router
           router_after_red 0%nat 255 0).
  vm_compute. reflexivity.
Defined.

Lemma frame_layout_when_length_fits_witness :
  exists d' buf' frame,
    ws2812b_rgb_led_brightness_set_blocking linear_scaling true 0 router 1 255
    = Some (0, d')
    /\ chip_cmd_buffer d' = Some buf'
    /\ bus d' = bus router ++ [WriteCall 1 frame; WriteReturn 1 0]
    /\ Z.of_nat (length frame) = 2 * 9 + 2
    /\ nth_error frame 0 = Some 0
    /\ mem_read frame 1 (2 * 9) = Some buf'
    /\ nth_error frame (Z.to_nat (2 * 9 + 1)) = Some 0.
Proof.
  apply (frame_layout_when_length_fits linear_scaling router 1 255 0
           (mixed_led miwifi_ws2812b_spi_led 1 0 0 255) (kzalloc 18));
    reflexivity.
Defined.

Lemma call_overruns_frame_witness :
  ws2812b_rgb_led_brightness_set_blocking linear_scaling true 0 chain32_device
    0 255 = None.
Proof.
  apply (call_overruns_frame linear_scaling chain32_device 0 255 0
           (mixed_led chain32 0 0 0 0) (kzalloc 288));
    reflexivity.
Defined.

Lemma calls_on_ok_device_never_fault_witness :
  exists rets d',
    serve linear_scaling router some_requests = Some (rets, d')
    /\ length rets = length some_requests
    /\ device_ok d' = true.
Proof.
  apply (calls_on_ok_device_never_fault linear_scaling router some_requests).
  - exact linear_scaling_keeps_subleds.
  - reflexivity.
  - repeat constructor.
Defined.

Lemma probe_leaves_device_in_good_order_witness :
  device_ok probed_router = true
  /\ map led_layout (leds probed_router)
     = probed_layout miwifi_ws2812b_spi_led (length two_nodes)
  /\ buffer_size probed_router = Some (Z.to_nat (9 * 2)).
Proof.
  apply (probe_leaves_device_in_good_order linear_scaling quiet_env
           miwifi_ws2812b_spi_led two_nodes probed_router).
  - exact linear_scaling_keeps_subleds.
  - apply Z.leb_le. reflexivity.
  - reflexivity.
  - vm_compute. reflexivity.
Defined.

Lemma probe_returns_known_codes_witness :
  (- ENOMEM = 0 \/ - ENOMEM = - ENODEV \/ - ENOMEM = - ENOMEM)
  /\ (- ENOMEM = - ENODEV <->
      Z.of_nat (length two_nodes) = 0
      \/ Z.of_nat (length two_nodes) <> chip_num miwifi_ws2812b_spi_led)
  /\ (- ENOMEM = - ENODEV -> half_probed_router = unbound_device)
  /\ (- ENOMEM = 0 <->
      exists cd,
        Some miwifi_ws2812b_spi_led = Some cd
        /\ two_nodes <> []
        /\ Z.of_nat (length two_nodes) = chip_num cd
        /\ buffer_alloc_ok second_registration_fails = true
        /\ forall i, (i < length two_nodes)%nat ->
                     led_alloc_ok second_registration_fails i = true
                     /\ subled_alloc_ok second_registration_fails i = true
                     /\ 0 <= register_ret second_registration_fails i)
  /\ (forall cd i,
         Some miwifi_ws2812b_spi_led = Some cd ->
         Z.of_nat (length two_nodes) = chip_num cd ->
         (i < length two_nodes)%nat ->
         register_ret second_registration_fails i < 0 ->
         - ENOMEM = - ENOMEM).
Proof.
  apply (probe_returns_known_codes linear_scaling second_registration_fails
           (Some miwifi_ws2812b_spi_led) two_nodes unbound_device
           half_probed_router (- ENOMEM)).
  vm_compute. reflexivity.
Defined.

Lemma probe_registers_every_led_witness :
  two_nodes <> []
  /\ length (leds probed_router) = length two_nodes
  /\ registered probed_router = seq 0 (length two_nodes)
  /\ drvdata probed_router = Some (length two_nodes - 1)%nat.
Proof.
  apply (probe_registers_every_led linear_scaling quiet_env
           miwifi_ws2812b_spi_led two_nodes probed_router).
  vm_compute. reflexivity.
Defined.

Lemma same_led_calls_never_overlap_witness :
  ~ (in_critical_section (t_pc midway_first) = true
     /\ in_critical_section (t_pc midway_second) = true)
  /\ ~ (t_pc midway_first = InWrite /\ t_pc midway_second = InWrite).
Proof.
  apply (same_led_calls_never_overlap linear_scaling same_led_callers
           same_led_midway [0; 0; 1]%nat
           ltac:(intros t [<- | [<- | []]]; reflexivity)
           ltac:(vm_compute; reflexivity)
           0%nat 1%nat midway_first midway_second).
  - discriminate.
  - vm_compute. reflexivity.
  - vm_compute. reflexivity.
  - reflexivity.
Defined.

Lemma call_keeps_slots_in_sync_witness :
  exists d',
    ws2812b_rgb_led_brightness_set_blocking linear_scaling true (-5)
      router_after_red 1 255
    = Some (-5, d')
    /\ slot_in_sync d' 1
    /\ forall (k2 : nat) (led2 : spi_ws2812b_led),
         k2 <> 1%nat ->
         nth_error (leds router_after_red) k2 = Some led2 ->
         led_ctrl_cmd led2 = 9 * chip_id led2 ->
         chip_id led2 <> 1 ->
         slot_in_sync router_after_red k2 ->
         slot_in_sync d' k2.
Proof.
  apply (call_keeps_slots_in_sync linear_scaling router_after_red 1 255 (-5)
           (mixed_led miwifi_ws2812b_spi_led 1 0 0 255)
           [219; 109; 182; 146; 73; 36; 146; 73; 36;
            0; 0; 0; 0; 0; 0; 0; 0; 0]);
    reflexivity.
Defined.

Lemma encoding_is_injective_witness : 0xa5 = 0xa5.
Proof.
  apply (encoding_is_injective 0xa5 0xa5); [ lia | lia | reflexivity ].
Defined.

Lemma pixel_bytes_determine_channels_witness :
  255 = 255 /\ 0 = 0 /\ 16 = 16.
Proof.
  apply (pixel_bytes_determine_channels spix_on_entry spix_on_entry
           {| r := {| h := 219; m := 109; l := 182 |};
              g := {| h := 146; m := 73; l := 36 |};
              b := {| h := 146; m := 105; l := 36 |} |}
           {| r := {| h := 219; m := 109; l := 182 |};
              g := {| h := 146; m := 73; l := 36 |};
              b := {| h := 146; m := 105; l := 36 |} |}
           255 0 16 255 0 16); try lia; reflexivity.
Defined.

(** ** Every device the driver can be bound to *)

Lemma match_data_is_miwifi (compatible : String.string)
    (cd : spi_ws2812b_chipdef) :
  device_get_match_data compatible = Some cd -> cd = miwifi_ws2812b_spi_led.
Proof.
  unfold device_get_match_data, spi_ws2812b_dt_ids. cbn [find fst].
  destruct (String.eqb _ compatible); cbn [option_map snd];
    [ intros H; now inversion H | discriminate ].
Qed.

Lemma layout_gives_cdef (cd : spi_ws2812b_chipdef) (n k : nat)
    (ls : list spi_ws2812b_led) (led : spi_ws2812b_led) :
  map led_layout ls = probed_layout cd n ->
  nth_error ls k = Some led ->
  cdef led = cd.
Proof.
  intros Hlay Hled.
  assert (Hin : In (led_layout led) (probed_layout cd n)).
  { rewrite <- Hlay. apply in_map. now apply nth_error_In with k. }
  unfold probed_layout in Hin. apply in_map_iff in Hin.
  destruct Hin as (j & Hj & _). unfold led_layout in Hj. now inversion Hj.
Qed.

Section ReachableFacts.

Variable calc : led_classdev_mc -> Z -> led_classdev_mc.

(** A probe that returned 0 on the match data of the table leaves the
    device in good order, every LED with the chip definition of the
    router. *)
Lemma bound_device_ok (compatible : String.string) (env : probe_env)
    (children : list device_node) (d0 : device) :
  keeps_subleds calc ->
  spi_ws2812b_probe calc env (device_get_match_data compatible) children
    unbound_device = Some (0, d0) ->
  device_ok d0 = true
  /\ map led_layout (leds d0)
     = probed_layout miwifi_ws2812b_spi_led (length children).
Proof.
  intros Hkeep H.
  destruct (device_get_match_data compatible) as [cd | ] eqn:Hmatch.
  2:{ cbn [spi_ws2812b_probe] in H. inversion H. }
  apply match_data_is_miwifi in Hmatch. subst cd.
  assert (Hnum : chip_num miwifi_ws2812b_spi_led <= 256)
    by (apply Z.leb_le; reflexivity).
  split;
    [ | exact (proj1 (proj2 (probe_lays_out_slots calc env
                               miwifi_ws2812b_spi_led children d0 Hnum H))) ].
  revert H. unfold spi_ws2812b_probe. cbv zeta.
  destruct (Z.of_nat (length children) =? 0) eqn:E0;
    [ intros H; inversion H | ].
  destruct (Z.of_nat (length children)
            =? chip_num miwifi_ws2812b_spi_led) eqn:E1;
    [ | intros H; inversion H ].
  cbn [negb orb]. apply Z.eqb_eq in E1.
  destruct (buffer_alloc_ok env); cbn [negb]; [ | intros H; inversion H ].
  intros H.
  refine (probe_children_ok calc children env miwifi_ws2812b_spi_led _ _ _ _ _
            (kzalloc (led_ctrl_cmd_len miwifi_ws2812b_spi_led
                      * chip_num miwifi_ws2812b_spi_led))
            Hkeep _ _ _ _ _ _ _ H).
  - apply Z.leb_le. reflexivity.
  - reflexivity.
  - reflexivity.
  - reflexivity.
  - reflexivity.
  - cbn [with_buffer unbound_device leds length]. lia.
  - reflexivity.
Qed.

(** Calls that have been served leave a device in good order in good
    order, and every LED where it was. *)
Lemma serve_keeps_ok (rs : list request) :
  forall (d d' : device) (rets : list Z),
    keeps_subleds calc ->
    device_ok d = true ->
    serve calc d rs = Some (rets, d') ->
    device_ok d' = true
    /\ map led_layout (leds d') = map led_layout (leds d).
Proof.
  induction rs as [ | rq rs IH]; intros d d' rets Hkeep Hok; cbn [serve].
  - intros H. inversion H. subst. auto.
  - destruct (ws2812b_rgb_led_brightness_set_blocking calc (rq_alloc_ok rq)
                (rq_spi_ret rq) d (rq_led rq) (rq_brightness rq))
      as [[r1 d1] | ] eqn:Ecall; [ | discriminate ].
    cbn [bind snd fst].
    destruct (serve calc d1 rs) as [[rets1 d2] | ] eqn:Eserve;
      [ | discriminate ].
    cbn [bind snd fst]. intros H. inversion H. subst. clear H.
    assert (Hk : (rq_led rq < length (leds d))%nat).
    { apply nth_error_Some.
      destruct (call_summary calc _ _ _ _ _ _ _ Ecall)
        as [(_ & _ & _ & led & Hled) | (_ & _ & led & Hrest)].
      - congruence.
      - destruct Hrest as (? & ? & ? & ? & ? & ? & Hled & _). congruence. }
    destruct (call_on_ok_device calc (rq_alloc_ok rq) (rq_spi_ret rq) d
                (rq_led rq) (rq_brightness rq) Hkeep Hok Hk)
      as (r1' & d1' & Hcall & Hok1 & _).
    rewrite Hcall in Ecall. inversion Ecall. subst r1' d1'.
    destruct (IH d1 d' rets1 Hkeep Hok1 Eserve) as [Hok' Hlay'].
    split; [ exact Hok' | ].
    rewrite Hlay'. exact (proj1 (call_keeps_layout calc _ _ _ _ _ _ _ Hcall)).
Qed.

(** C3 (frame of a call): bind the driver to a device of its match
    table, let the probe succeed and any calls follow.  Every further
    call on any LED of the group, once its frame is allocated, returns,
    and the frame it hands to the bus has exactly
    [chip_num * led_ctrl_cmd_len + 2] bytes, 20 on the router: byte 0
    is zero, bytes 1 to [chip_num * led_ctrl_cmd_len] are the whole
    group buffer, all chips, as the call leaves it, and the last byte
    is zero. *)
Theorem frame_of_every_call (compatible : String.string) (env : probe_env)
    (children : list device_node) (d0 d : device) (rs : list request)
    (rets : list Z) (k : nat) (v spi_ret : Z) :
  keeps_subleds calc ->
  spi_ws2812b_probe calc env (device_get_match_data compatible) children
    unbound_device = Some (0, d0) ->
  serve calc d0 rs = Some (rets, d) ->
  (k < length (leds d))%nat ->
  exists led d' buf' frame,
    nth_error (leds d) k = Some led
    /\ cdef led = miwifi_ws2812b_spi_led
    /\ ws2812b_rgb_led_brightness_set_blocking calc true spi_ret d k v
       = Some (spi_ret, d')
    /\ chip_cmd_buffer d' = Some buf'
    /\ Z.of_nat (length buf')
       = chip_num (cdef led) * led_ctrl_cmd_len (cdef led)
    /\ bus d' = bus d ++ [WriteCall k frame; WriteReturn k spi_ret]
    /\ Z.of_nat (length frame)
       = chip_num (cdef led) * led_ctrl_cmd_len (cdef led) + 2
    /\ nth_error frame 0 = Some 0
    /\ mem_read frame 1 (chip_num (cdef led) * led_ctrl_cmd_len (cdef led))
       = Some buf'
    /\ nth_error frame
         (Z.to_nat (chip_num (cdef led) * led_ctrl_cmd_len (cdef led) + 1))
       = Some 0.
Proof.
  intros Hkeep Hprobe Hserve Hk.
  destruct (bound_device_ok compatible env children d0 Hkeep Hprobe)
    as [Hok0 Hlay0].
  destruct (serve_keeps_ok rs d0 d rets Hkeep Hok0 Hserve) as [Hok Hlay].
  rewrite Hlay0 in Hlay.
  destruct (nth_error (leds d) k) as [led | ] eqn:Hled;
    [ | apply nth_error_None in Hled; lia ].
  pose proof (layout_gives_cdef _ _ _ _ _ Hlay Hled) as Hcd.
  unfold device_ok in Hok.
  destruct (chip_cmd_buffer d) as [buf | ] eqn:Hbuf; [ | discriminate ].
  pose proof (forallb_nth _ _ _ _ Hok Hled) as Hledok.
  destruct (ok_device_is_ready calc d k v buf led Hkeep Hbuf Hled Hledok)
    as [Hready Hfit].
  destruct (call_runs calc d k v spi_ret led buf Hled Hbuf Hready Hfit)
    as (cr & cg & cb & p & leds' & buf' & _ & _ & _ & Hw & Hcall).
  destruct (call_ready_inv calc d k v led buf Hled Hbuf Hready)
    as (_ & _ & _ & _ & Hlen & _).
  assert (Hlen' : chip_num (cdef led) * led_ctrl_cmd_len (cdef led)
                  = Z.of_nat (length buf'))
    by (rewrite (mem_write_length _ _ _ _ Hw), Hlen; apply Z.mul_comm).
  destruct (frame_shape buf') as (F1 & F2 & F3 & F4).
  eexists led, _, buf', (0 :: buf' ++ [0]).
  split; [ reflexivity | ]. split; [ exact Hcd | ].
  split; [ exact Hcall | ]. device_simpl.
  rewrite Hlen'.
  split; [ reflexivity | ]. split; [ reflexivity | ].
  split; [ reflexivity | ]. split; [ exact F1 | ].
  split; [ exact F2 | ]. split; [ exact F3 | ].
  replace (Z.to_nat (Z.of_nat (length buf') + 1)) with (length buf' + 1)%nat
    by lia.
  exact F4.
Qed.

End ReachableFacts.

Lemma frame_of_every_call_witness :
  exists led d' buf' frame,
    nth_error (leds served_router) 1 = Some led
    /\ cdef led = miwifi_ws2812b_spi_led
    /\ ws2812b_rgb_led_brightness_set_blocking linear_scaling true 0
         served_router 1 255
       = Some (0, d')
    /\ chip_cmd_buffer d' = Some buf'
    /\ Z.of_nat (length buf')
       = chip_num (cdef led) * led_ctrl_cmd_len (cdef led)
    /\ bus d' = bus served_router ++ [WriteCall 1 frame; WriteReturn 1 0]
    /\ Z.of_nat (length frame)
       = chip_num (cdef led) * led_ctrl_cmd_len (cdef led) + 2
    /\ nth_error frame 0 = Some 0
    /\ mem_read frame 1 (chip_num (cdef led) * led_ctrl_cmd_len (cdef led))
       = Some buf'
    /\ nth_error frame
         (Z.to_nat (chip_num (cdef led) * led_ctrl_cmd_len (cdef led) + 1))
       = Some 0.
Proof.
  apply (frame_of_every_call linear_scaling "xiaomi,ws2812b-spi"%string
           quiet_env two_nodes probed_router served_router some_requests
           [0; -12; -5] 1%nat 255 0).
  - exact linear_scaling_keeps_subleds.
  - vm_compute. reflexivity.
  - vm_compute. reflexivity.
  - vm_compute. lia.
Defined.

(** The frame of that call on the router, byte by byte: twenty bytes,
    the pad, both slots, the pad. *)
Example served_router_frame :
  exists d',
    ws2812b_rgb_led_brightness_set_blocking linear_scaling true 0
      served_router 1 255 = Some (0, d')
    /\ bus d'
       = bus served_router
         ++ [ WriteCall 1 [0; 146; 73; 36; 146; 73; 36; 146; 73; 36;
                           146; 73; 36; 146; 73; 36; 146; 73; 36; 0];
              WriteReturn 1 0 ].
Proof.
  eexists. split; [ vm_compute; reflexivity | ]. vm_compute. reflexivity.
Qed.
